(** * Browser-driven acceptance scripts of [testsprite_tests]

    Every file of the repository is one Python coroutine [run_test] with the
    same shape: three handles initialised to [None], a [try] body that starts
    Playwright, launches Chromium, opens a context and a page, navigates,
    waits best-effort for the DOM, performs a list of click / fill / goto
    steps and (in some files) a final visibility assertion, and a [finally]
    block that closes whatever was opened.

    The embedding below keeps that shape.  The browser is the environment:
    a [world] answers every awaited call (it returns or raises) as a function
    of the history of the run so far, and every call is recorded in a trace.
    The Python control flow ([try]/[except]/[finally], sequencing of awaits,
    name lookup) is written as a small state-and-exception monad. *)

From Stdlib Require Import List String Ascii ZArith Bool Arith Lia.
Import ListNotations.
Open Scope string_scope.
Open Scope list_scope.
Open Scope Z_scope.

Set Implicit Arguments.

(** ** Exceptions *)

(** The exception classes that matter to the scripts.  [TimeoutError] is the
    Playwright subclass of [Error]; [Exception] stands for any other class. *)
Inductive exn : Type :=
| Error (msg : string)
| TimeoutError (msg : string)
| AssertionError (msg : string)
| NameError (name : string)
| IndexError (msg : string)
| AttributeError (msg : string)
| SyntaxError (msg : string)
| Exception (msg : string).

(** [except async_api.Error] *)
Definition isinstance_Error (e : exn) : bool :=
  match e with
  | Error _ | TimeoutError _ => true
  | _ => false
  end.

(** [except AssertionError] *)
Definition isinstance_AssertionError (e : exn) : bool :=
  match e with
  | AssertionError _ => true
  | _ => false
  end.

(** ** Objects handed out by the automation library *)

Definition page := nat.
Definition frame := nat.

Variant playwright : Type := PlaywrightObj.
Variant browser_obj : Type := BrowserObj.
Variant context_obj : Type := ContextObj.

(** [frame.locator(selector).nth(n)] builds a lazy description of an element;
    nothing is looked up until an action is awaited on it. *)
Record locator : Type := Locator {
  loc_page : page;
  loc_selector : string;
  loc_nth : nat
}.

(** ** Awaited calls and the trace *)

Inductive call : Type :=
| Start
| Launch (headless : bool) (args : list string)
| NewContext
| SetDefaultTimeout (ms : Z)
| NewPage
| PageGoto (p : page) (url wait_until : string) (timeout : Z)
| PageWaitForLoadState (p : page) (state : string) (timeout : Z)
| FrameWaitForLoadState (f : frame) (state : string) (timeout : Z)
| WaitForTimeout (p : page) (ms : Z)
| LocatorClick (l : locator) (timeout : option Z)
| LocatorFill (l : locator) (value : string) (timeout : option Z)
| ToBeVisible (p : page) (selector : string) (timeout : Z)
| Sleep (seconds : Z)
| ContextClose
| BrowserClose
| Stop.

Inductive event : Type :=
| Call (c : call) (raised : option exn)
| Pages (l : list page)
| Frames (p : page) (l : list frame).

(** The environment.  Each component sees the trace so far. *)
Record world : Type := World {
  outcome : list event -> call -> option exn;
  opened_page : list event -> page;
  context_pages : list event -> list page;
  page_frames : list event -> page -> list frame
}.

(** ** The monad of a running coroutine *)

(** The three variables that the [finally] block reads, and the trace. *)
Record state : Type := State {
  pw : option playwright;
  browser : option browser_obj;
  context : option context_obj;
  trace : list event
}.

Inductive result (A : Type) : Type :=
| Ok (a : A)
| Raise (e : exn).
Arguments Ok {A} a.
Arguments Raise {A} e.

Definition M (A : Type) : Type := world -> state -> result A * state.

Definition ret {A : Type} (a : A) : M A := fun _ s => (Ok a, s).

Definition raise {A : Type} (e : exn) : M A := fun _ s => (Raise e, s).

Definition bind {A B : Type} (m : M A) (k : A -> M B) : M B :=
  fun w s =>
    match m w s with
    | (Ok a, s1) => k a w s1
    | (Raise e, s1) => (Raise e, s1)
    end.

Notation "x <- m ;; k" := (bind m (fun x => k))
  (at level 61, m at next level, right associativity).
Notation "m ;; k" := (bind m (fun _ => k))
  (at level 61, right associativity).

(** [try: body except C: handler] *)
Definition try_except {A : Type} (body : M A) (catches : exn -> bool)
  (handler : exn -> M A) : M A :=
  fun w s =>
    match body w s with
    | (Ok a, s1) => (Ok a, s1)
    | (Raise e, s1) => if catches e then handler e w s1 else (Raise e, s1)
    end.

(** [try: body finally: cleanup].  The cleanup runs whatever the body did; an
    exception leaving the cleanup replaces the outcome of the body. *)
Definition try_finally {A : Type} (body : M A) (cleanup : M unit) : M A :=
  fun w s =>
    match body w s with
    | (r, s1) =>
        match cleanup w s1 with
        | (Ok _, s2) => (r, s2)
        | (Raise e, s2) => (Raise e, s2)
        end
    end.

Definition log (e : event) (s : state) : state :=
  State (pw s) (browser s) (context s) (trace s ++ [e]).

(** [await c]: the world decides, the trace records. *)
Definition await (c : call) : M unit :=
  fun w s =>
    let r := outcome w (trace s) c in
    match r with
    | None => (Ok tt, log (Call c r) s)
    | Some e => (Raise e, log (Call c r) s)
    end.

Definition assign_pw (v : playwright) : M unit :=
  fun _ s => (Ok tt, State (Some v) (browser s) (context s) (trace s)).

Definition assign_browser (v : browser_obj) : M unit :=
  fun _ s => (Ok tt, State (pw s) (Some v) (context s) (trace s)).

Definition assign_context (v : context_obj) : M unit :=
  fun _ s => (Ok tt, State (pw s) (browser s) (Some v) (trace s)).

(** ** Name lookup *)

(** Names bound at module level by [import asyncio],
    [from playwright import async_api] and [async def run_test]. *)
Definition module_globals : list string :=
  ["asyncio"; "async_api"; "run_test"].

(** Names of Python's [builtins] module. *)
Definition builtins : list string :=
  ["abs"; "aiter"; "all"; "anext"; "any"; "ascii"; "bin"; "bool";
   "breakpoint"; "bytearray"; "bytes"; "callable"; "chr"; "classmethod";
   "compile"; "complex"; "delattr"; "dict"; "dir"; "divmod"; "enumerate";
   "eval"; "exec"; "filter"; "float"; "format"; "frozenset"; "getattr";
   "globals"; "hasattr"; "hash"; "help"; "hex"; "id"; "input"; "int";
   "isinstance"; "issubclass"; "iter"; "len"; "list"; "locals"; "map";
   "max"; "memoryview"; "min"; "next"; "object"; "oct"; "open"; "ord";
   "pow"; "print"; "property"; "range"; "repr"; "reversed"; "round"; "set";
   "setattr"; "slice"; "sorted"; "staticmethod"; "str"; "sum"; "super";
   "tuple"; "type"; "vars"; "zip"; "__import__";
   "None"; "True"; "False"; "Ellipsis"; "NotImplemented";
   "BaseException"; "Exception"; "ArithmeticError"; "AssertionError";
   "AttributeError"; "BlockingIOError"; "BrokenPipeError"; "BufferError";
   "ChildProcessError"; "ConnectionError"; "EOFError"; "FileExistsError";
   "FileNotFoundError"; "FloatingPointError"; "GeneratorExit";
   "ImportError"; "IndentationError"; "IndexError"; "InterruptedError";
   "KeyError"; "KeyboardInterrupt"; "LookupError"; "MemoryError";
   "ModuleNotFoundError"; "NameError"; "NotImplementedError"; "OSError";
   "OverflowError"; "PermissionError"; "RecursionError"; "ReferenceError";
   "RuntimeError"; "StopAsyncIteration"; "StopIteration"; "SyntaxError";
   "SystemError"; "SystemExit"; "TabError"; "TimeoutError"; "TypeError";
   "UnboundLocalError"; "UnicodeError"; "ValueError"; "Warning";
   "ZeroDivisionError"].

Definition bound_in (names : list string) (name : string) : bool :=
  existsb (String.eqb name) names.

(** Loading a name that the function never assigns: module globals first,
    then builtins, else [NameError]. *)
Definition load_global (globals : list string) (name : string) : M unit :=
  if bound_in globals name || bound_in builtins name
  then ret tt
  else raise (NameError name).

(** ** The scripts as data *)

(** One instruction of the generated body, with the literals of the source:
    - [Goto url wait_until timeout] is
      [await page.goto(url, wait_until=..., timeout=...)];
    - [Click selector n settle timeout] is
      [frame = context.pages[-1]; elem = frame.locator(selector).nth(n);
       await page.wait_for_timeout(settle); await elem.click(timeout=timeout)];
    - [Fill selector n settle value] is the same with
      [await elem.fill(value)]. *)
Inductive step : Type :=
| Goto (url wait_until : string) (timeout : Z)
| Click (selector : string) (n : nat) (settle : Z) (timeout : Z)
| Fill (selector : string) (n : nat) (settle : Z) (value : string).

(** The final block
    [try: await expect(frame.locator(selector).first).to_be_visible(timeout=t)
     except AssertionError: raise AssertionError(reason)]. *)
Record assertion_block : Type := Assertion {
  expected : string;
  visible_timeout : Z;
  reason : string
}.

(** One file: its name, whether stray Markdown fences (three backquotes on a
    line of their own) stand in its body, the statements between the
    stabilisation loop and the assertion, and the assertion block if any.
    Everything else is the same text in all the files. *)
Record script : Type := Script {
  file : string;
  fenced : bool;
  steps : list step;
  assertion : option assertion_block
}.

(** ** The coroutine [run_test] *)

(** Reading a variable. *)
Definition read {A : Type} (f : state -> A) : M A := fun _ s => (Ok (f s), s).

(** [l[-1]], when there is one. *)
Fixpoint last_opt {A : Type} (l : list A) : option A :=
  match l with
  | [] => None
  | [a] => Some a
  | _ :: rest => last_opt rest
  end.

(** [if v: m] for a variable that holds [None] or an object. *)
Definition if_set {A : Type} (v : option A) (m : M unit) : M unit :=
  match v with
  | Some _ => m
  | None => ret tt
  end.

(** [pw = None; browser = None; context = None] *)
Definition enter : M unit :=
  fun _ s => (Ok tt, State None None None (trace s)).

(** [page = await context.new_page()] *)
Definition new_page : M page :=
  fun w s =>
    match await NewPage w s with
    | (Ok _, s1) => (Ok (opened_page w (trace s)), s1)
    | (Raise e, s1) => (Raise e, s1)
    end.

(** The [args] of [pw.chromium.launch]. *)
Definition chromium_args : list string :=
  ["--window-size=1280,720"; "--disable-dev-shm-usage"; "--ipc=host";
   "--single-process"].

(** Start Playwright, launch Chromium, open a context and a page.  Each
    variable is assigned only when its call has returned. *)
Definition open_session : M page :=
  await Start ;;
  assign_pw PlaywrightObj ;;
  await (Launch true chromium_args) ;;
  assign_browser BrowserObj ;;
  await NewContext ;;
  assign_context ContextObj ;;
  await (SetDefaultTimeout 5000) ;;
  new_page.

(** [try: m except async_api.Error: pass] *)
Definition best_effort (m : M unit) : M unit :=
  try_except m isinstance_Error (fun _ => ret tt).

(** [for frame in page.frames: try: await frame.wait_for_load_state(...)
     except async_api.Error: pass] *)
Fixpoint wait_frames (fs : list frame) : M unit :=
  match fs with
  | [] => ret tt
  | f :: rest =>
      best_effort (await (FrameWaitForLoadState f "domcontentloaded" 3000)) ;;
      wait_frames rest
  end.

(** [page.frames], read once when the loop starts. *)
Definition read_frames (p : page) : M (list frame) :=
  fun w s =>
    let fs := page_frames w (trace s) p in
    (Ok fs, log (Frames p fs) s).

(** The two best-effort blocks after the first navigation: the wait on the
    page, then the loop over its frames. *)
Definition stabilize (p : page) : M unit :=
  best_effort (await (PageWaitForLoadState p "domcontentloaded" 3000)) ;;
  fs <- read_frames p ;;
  wait_frames fs.

(** [frame = context.pages[-1]] *)
Definition last_page : M page :=
  fun w s =>
    match context s with
    | None =>
        (Raise (AttributeError "'NoneType' object has no attribute 'pages'"), s)
    | Some _ =>
        let l := context_pages w (trace s) in
        match last_opt l with
        | Some p => (Ok p, log (Pages l) s)
        | None => (Raise (IndexError "list index out of range"), log (Pages l) s)
        end
    end.

(** One step.  The settle delay is awaited on [page], the variable bound
    when the session was opened; the action goes to [frame], the page read
    from the context at the start of the step. *)
Definition exec_step (p : page) (st : step) : M unit :=
  match st with
  | Goto url wait_until timeout => await (PageGoto p url wait_until timeout)
  | Click selector n settle timeout =>
      fr <- last_page ;;
      let elem := Locator fr selector n in
      await (WaitForTimeout p settle) ;;
      await (LocatorClick elem (Some timeout))
  | Fill selector n settle value =>
      fr <- last_page ;;
      let elem := Locator fr selector n in
      await (WaitForTimeout p settle) ;;
      await (LocatorFill elem value None)
  end.

(** The steps, one after the other; the first that raises ends them. *)
Fixpoint exec_steps (p : page) (sts : list step) : M unit :=
  match sts with
  | [] => ret tt
  | st :: rest => exec_step p st ;; exec_steps p rest
  end.

(** The final assertion block, when the file has one.  The callee [expect] is
    loaded before its argument is evaluated. *)
Definition check_assertion (globals : list string)
  (a : option assertion_block) : M unit :=
  match a with
  | None => ret tt
  | Some a =>
      fr <- last_page ;;
      try_except
        (load_global globals "expect" ;;
         await (ToBeVisible fr (expected a) (visible_timeout a)))
        isinstance_AssertionError
        (fun _ => raise (AssertionError (reason a)))
  end.

(** The body of the outer [try], up to the last interaction step. *)
Definition scenario_steps (sc : script) : M unit :=
  p <- open_session ;;
  await (PageGoto p "http://localhost:3000" "commit" 10000) ;;
  stabilize p ;;
  exec_steps p (steps sc).

(** The whole body of the outer [try]. *)
Definition scenario_body (globals : list string) (sc : script) : M unit :=
  scenario_steps sc ;;
  check_assertion globals (assertion sc) ;;
  await (Sleep 5).

(** The [finally] block. *)
Definition teardown : M unit :=
  c <- read context ;;
  if_set c (await ContextClose) ;;
  b <- read browser ;;
  if_set b (await BrowserClose) ;;
  r <- read pw ;;
  if_set r (await Stop).

(** [run_test], for a module that binds the names [globals]. *)
Definition run_test_in (globals : list string) (sc : script) : M unit :=
  enter ;;
  try_finally (scenario_body globals sc) teardown.

(** [run_test] as the files have it. *)
Definition run_test (sc : script) : M unit := run_test_in module_globals sc.

(** Running the file: a file that does not parse raises before [run_test] is
    ever defined; otherwise [asyncio.run(run_test())]. *)
Definition main (sc : script) : M unit :=
  if fenced sc then raise (SyntaxError "invalid syntax") else run_test sc.

(** Before anything has run. *)
Definition init : state := State None None None [].

(** ** The fifteen files

    The step lists are the statements of each file after the stabilisation
    loop, in order, with their literals. *)

Definition TC001_steps : list step :=
  [ Goto "http://localhost:3000" "commit" 10000
  ; Click "xpath=html/body/main/section[1]/div[2]/div[2]/a[2]/button" 0 3000 5000
  ; Click "xpath=html/body/main/section[1]/div[2]/div[2]/a[2]/button" 0 3000 5000
  ; Fill "xpath=html/body/div[2]/div/div/div[1]/div[2]/form/div[1]/div[1]/div/div[1]/input" 0 3000
      "test@demo.com"
  ; Click "xpath=html/body/div[2]/div/div/div[1]/div[2]/form/div[2]/button" 0 3000 5000
  ; Fill "xpath=html/body/div[2]/div/div/div[1]/div[2]/form/div[1]/div[2]/div/div[1]/div[1]/label" 0 3000
      "pw1234-#"
  ; Click "xpath=html/body/div[2]/div/div/div/div[2]/form/button[2]" 0 3000 5000
  ; Click "xpath=html/body/div[3]/main/header/div/div[2]/a/button" 0 3000 5000
  ; Click "xpath=html/body/div[3]/main/header/div/div[2]/a/button" 0 3000 5000
  ; Fill "xpath=html/body/div[2]/main/div/div/form/div[1]/div[1]/div[1]/input" 0 3000
      "Acme Corp"
  ; Fill "xpath=html/body/div[2]/main/div/div/form/div[1]/div[1]/div[2]/input" 0 3000
      "2026/000001/07"
  ; Fill "xpath=html/body/div[2]/main/div/div/form/div[1]/div[1]/div[3]/input" 0 3000
      "Financial Services"
  ; Fill "xpath=html/body/div[2]/main/div/div/form/div[1]/div[1]/div[4]/input" 0 3000
      "250"
  ; Fill "xpath=html/body/div[2]/main/div/div/form/div[1]/div[1]/input" 0 3000
      "R500,000"
  ; Fill "xpath=html/body/div[2]/main/div/div/form/div[2]/div/div[1]/input" 0 3000
      "John Doe"
  ; Fill "xpath=html/body/div[2]/main/div/div/form/div[2]/div/div[2]/input" 0 3000
      "john.doe@acmecorp.co.za"
  ; Fill "xpath=html/body/div[2]/main/div/div/form/div[2]/div/div[3]/input" 0 3000
      "+27 82 555 1234"
  ; Click "xpath=html/body/div[2]/main/div/div/form/div[4]/button[2]" 0 3000 5000
  ; Click "xpath=html/body/div[2]/main/div/div/div[2]/div/div[1]/button[4]" 0 3000 5000
  ; Click "xpath=html/body/div[2]/main/div/div/div[2]/div/div[1]/button[1]" 0 3000 5000
  ; Click "xpath=html/body/div[2]/main/div/div/div[2]/div/div[1]/button[4]" 0 3000 5000
  ; Click "xpath=html/body/div[2]/main/header/div/div[2]/div[1]/button[2]" 0 3000 5000
  ; Goto "http://localhost:3000/dashboard/applicants/34" "commit" 10000
  ; Goto "http://localhost:3000/dashboard/applicants/34" "commit" 10000 ].

Definition TC001 : script :=
  Script "TC001_Applicant_Details_Input_and_AI_Quotation_Generation.py" false TC001_steps
    (Some (Assertion "text=AI-generated Quotation" 3000
      "Test case failed: After submitting the new applicant form the test expected an AI-generated Quotation to appear on the applicant page showing the fee breakdown and any overlimit notification. The 'AI-generated Quotation' element was not visible, indicating the quotation or overlimit alert was not produced or displayed.")).

Definition TC002_steps : list step :=
  [ Goto "http://localhost:3000" "commit" 10000
  ; Click "xpath=html/body/main/section[1]/div[2]/div[2]/a[2]/button" 0 3000 5000
  ; Click "xpath=html/body/main/section[1]/div[2]/div[2]/a[2]/button" 0 3000 5000
  ; Fill "xpath=html/body/div[2]/div/div/div[1]/div[2]/form/div[1]/div[1]/div/div[1]/input" 0 3000
      "test@demo.com"
  ; Click "xpath=html/body/div[2]/div/div/div[1]/div[2]/form/div[2]/button" 0 3000 5000
  ; Click "xpath=html/body/div[2]/div/div/div[1]/div[2]/form/div[1]/div[2]/div/div[1]/div[2]/button" 0 3000 5000
  ; Fill "xpath=html/body/div[2]/div/div/div/div[2]/form/div/div/div[1]/div[2]/input" 0 3000
      "pw1234-#"
  ; Click "xpath=html/body/div[2]/div/div/div/div[2]/form/button[2]" 0 3000 5000
  ; Click "xpath=html/body/div[2]/div/div/div/div[2]/form/button[2]" 0 3000 5000
  ; Click "xpath=html/body/div[3]/aside/nav/a[2]" 0 3000 5000
  ; Click "xpath=html/body/div[3]/aside/nav/a[2]" 0 3000 5000
  ; Click "xpath=html/body/div[3]/main/div/section/div[2]/div/div/table/tbody/tr[6]/td[7]/div/button" 0 3000 5000
  ; Click "xpath=html/body/div[6]/div/div[3]" 0 3000 5000
  ; Click "xpath=html/body/div[5]/div/div[3]" 0 3000 5000
  ; Click "xpath=html/body/div[3]/main/div/section/div[2]/div/div/table/tbody/tr[6]/td[7]/div/button" 0 3000 5000
  ; Click "xpath=html/body/div[6]/div/a" 0 3000 5000
  ; Click "xpath=html/body/div[3]/main/div/section/div[2]/div/div/table/tbody/tr[6]/td[7]/div/button" 0 3000 5000
  ; Click "xpath=html/body/div[5]/div/div[3]" 0 3000 5000
  ; Click "xpath=html/body/div[3]/aside/nav/a[3]" 0 3000 5000
  ; Click "xpath=html/body/div[3]/aside/nav/a[3]" 0 3000 5000
  ; Click "xpath=html/body/div[3]/main/div/section/div[2]/div/div/div/table/tbody/tr[7]/td[7]/div/button[3]" 0 3000 5000
  ; Click "xpath=html/body/div[6]/div/a[1]" 0 3000 5000
  ; Click "xpath=html/body/div[3]/main/div/section/div[2]/div/div/div/table/tbody/tr[7]/td[7]/div/button[3]" 0 3000 5000
  ; Click "xpath=html/body/div[5]/div/a[1]" 0 3000 5000
  ; Click "xpath=html/body/div[2]/main/div/div/div[2]/div/div[1]/button[3]" 0 3000 5000
  ; Click "xpath=html/body/div[2]/main/div/div/div[2]/div/div[4]/div/div/div[1]/div/div[1]/button" 0 3000 5000
  ; Click "xpath=html/body/div[2]/main/div/div/div[2]/div/div[4]/div/div/div[1]/div/div[2]/button" 0 3000 5000
  ; Click "xpath=html/body/div[2]/main/div/div/div[2]/div/div[4]/div/div/div[2]/div/div[2]/button" 0 3000 5000
  ; Click "xpath=html/body/div[2]/main/div/div/div[2]/div/div[4]/div/div/div[1]/div/div[1]/button" 0 3000 5000
  ; Click "xpath=html/body/div[2]/main/div/div/div[2]/div/div[1]/button[5]" 0 3000 5000 ].

Definition TC002 : script :=
  Script "TC002_Quote_Signing_and_Workflow_Trigger.py" false TC002_steps
    None.

Definition TC003_steps : list step :=
  [ Goto "http://localhost:3000" "commit" 10000
  ; Click "xpath=html/body/main/section[1]/div[2]/div[2]/a[2]/button" 0 3000 5000
  ; Click "xpath=html/body/main/section[1]/div[2]/div[2]/a[2]/button" 0 3000 5000
  ; Fill "xpath=html/body/div[2]/div/div/div[1]/div[2]/form/div[1]/div[1]/div/div[1]/input" 0 3000
      "test@demo.com"
  ; Click "xpath=html/body/div[2]/div/div/div[1]/div[2]/form/div[2]/button" 0 3000 5000
  ; Fill "xpath=html/body/div[2]/div/div/div[1]/div[2]/form/div[1]/div[2]/div/div[1]/div[1]/label" 0 3000
      "pw1234-#"
  ; Click "xpath=html/body/div[2]/div/div/div/div[2]/form/button[2]" 0 3000 5000
  ; Click "xpath=html/body/div[3]/aside/nav/a[2]" 0 3000 5000
  ; Click "xpath=html/body/div[3]/aside/nav/a[2]" 0 3000 5000
  ; Click "xpath=html/body/div[3]/main/div/section/div[2]/div/div/table/tbody/tr[1]/td[7]/div/button" 0 3000 5000
  ; Click "xpath=html/body/div[6]/div/a" 0 3000 5000
  ; Click "xpath=html/body/div[3]/main/div/section/div[2]/div/div/table/tbody/tr[1]/td[7]/div/button" 0 3000 5000
  ; Click "xpath=html/body/div[5]/div/a" 0 3000 5000
  ; Click "xpath=html/body/div[2]/main/div/div/div[2]/div/div[1]/button[3]" 0 3000 5000 ].

Definition TC003 : script :=
  Script "TC003_Facility_Application_Form_Availability_Post_Quotation_Approval.py" false TC003_steps
    None.

Definition TC004_steps : list step :=
  [ Goto "http://localhost:3000" "commit" 10000
  ; Click "xpath=html/body/main/section[1]/div[2]/div[2]/a[2]/button" 0 3000 5000
  ; Click "xpath=html/body/main/section[1]/div[2]/div[2]/a[2]/button" 0 3000 5000
  ; Fill "xpath=html/body/div[2]/div/div/div[1]/div[2]/form/div[1]/div[1]/div/div[1]/input" 0 3000
      "test@demo.com"
  ; Fill "xpath=html/body/div[2]/div/div/div[1]/div[2]/form/div[1]/div[2]/div/div[1]/div[2]/input" 0 3000
      "pw1234-#"
  ; Click "xpath=html/body/div[2]/div/div/div[1]/div[2]/form/div[2]/button" 0 3000 5000
  ; Click "xpath=html/body/div[3]/main/div/div[2]/div/div/div[3]/div[2]/div/div[4]/button" 0 3000 5000
  ; Click "xpath=html/body/div[6]/div/a[2]" 0 3000 5000
  ; Click "xpath=html/body/div[3]/main/div/div[2]/div/div/div[3]/div[2]/div/div[4]/button" 0 3000 5000
  ; Click "xpath=html/body/div[5]/div/a[2]" 0 3000 5000
  ; Click "xpath=html/body/div[2]/main/header/div/div[2]/button" 0 3000 5000
  ; Click "xpath=html/body/div[5]/div" 0 3000 5000 ].

Definition TC004 : script :=
  Script "TC004_Mandate_Determination_and_Parallel_Workflow_Branching.py" false TC004_steps
    None.

Definition TC005_steps : list step :=
  [ Goto "http://localhost:3000" "commit" 10000
  ; Click "xpath=html/body/main/section[1]/div[2]/div[2]/a[2]/button" 0 3000 5000
  ; Click "xpath=html/body/main/section[1]/div[2]/div[2]/a[2]/button" 0 3000 5000
  ; Fill "xpath=html/body/div[2]/div/div/div[1]/div[2]/form/div[1]/div[1]/div/div[1]/input" 0 3000
      "test@demo.com"
  ; Fill "xpath=html/body/div[2]/div/div/div[1]/div[2]/form/div[1]/div[2]/div/div[1]/div[2]/input" 0 3000
      "pw1234-#"
  ; Click "xpath=html/body/div[2]/div/div/div[1]/div[2]/form/div[2]/button" 0 3000 5000
  ; Click "xpath=html/body/div[3]/aside/nav/a[2]" 0 3000 5000
  ; Click "xpath=html/body/div[3]/main/header/div/div[2]/a/button" 0 3000 5000
  ; Click "xpath=html/body/div[3]/main/div/section/div[2]/div/div/table/tbody/tr[1]/td[7]/div/button" 0 3000 5000
  ; Fill "xpath=html/body/div[3]/main/div/div/form/div[1]/div[1]/div[1]/input" 0 3000
      "Test Company Ltd"
  ; Fill "xpath=html/body/div[3]/main/div/div/form/div[1]/div[1]/div[2]/input" 0 3000
      "2026/000001/07"
  ; Fill "xpath=html/body/div[3]/main/div/div/form/div[1]/div[1]/div[3]/input" 0 3000
      "Financial Services"
  ; Fill "xpath=html/body/div[3]/main/div/div/form/div[2]/div/div[1]/input" 0 3000
      "Jane Doe"
  ; Fill "xpath=html/body/div[3]/main/div/div/form/div[2]/div/div[2]/input" 0 3000
      "jane.doe@example.com"
  ; Click "xpath=html/body/div[3]/main/div/div/form/div[4]/button[2]" 0 3000 5000
  ; Fill "xpath=html/body/div[3]/main/div/div/form/div[1]/div[1]/div[4]/input" 0 3000
      "50"
  ; Fill "xpath=html/body/div[3]/main/div/div/form/div[1]/div[1]/input" 0 3000
      "R500,000"
  ; Fill "xpath=html/body/div[3]/main/div/div/form/div[2]/div/div[3]/input" 0 3000
      "+27 82 123 4567"
  ; Click "xpath=html/body/div[3]/main/div/div/div[2]/div/div[1]/button[2]" 0 3000 5000
  ; Click "xpath=html/body/div[3]/main/div/div/div[2]/div/div[3]/div/div/button" 0 3000 5000
  ; Click "xpath=html/body/div[3]/main/div/div/div[2]/div/div[3]/div/div/button" 0 3000 5000
  ; Click "xpath=html/body/div[3]/aside/nav/a[2]" 0 3000 5000
  ; Click "xpath=html/body/div[3]/aside/nav/a[2]" 0 3000 5000
  ; Click "xpath=html/body/div[3]/main/div/section/div[2]/div/div/table/tbody/tr[4]/td[7]/div/button" 0 3000 5000
  ; Click "xpath=html/body/div[6]/div/a" 0 3000 5000
  ; Click "xpath=html/body/div[5]/div/a" 0 3000 5000
  ; Click "xpath=html/body/div[2]/main/div/div/div[2]/div/div[1]/button[2]" 0 3000 5000
  ; Click "xpath=html/body/div[2]/main/header/div/div[2]/div[1]/button[1]" 0 3000 5000
  ; Click "xpath=html/body/div[2]/main/header/div/div[2]/div[1]/button[1]" 0 3000 5000
  ; Click "xpath=html/body/div[2]/main/header/div/div[2]/div[1]/button[2]" 0 3000 5000 ].

Definition TC005 : script :=
  Script "TC005_AI_Analysis_of_Submitted_Documents_and_Aggregation_of_Results.py" false TC005_steps
    None.

Definition TC006_steps : list step :=
  [ Goto "http://localhost:3000" "commit" 10000
  ; Click "xpath=html/body/main/section[1]/div[2]/div[2]/a[2]/button" 0 3000 5000
  ; Click "xpath=html/body/main/section[1]/div[2]/div[2]/a[2]/button" 0 3000 5000
  ; Fill "xpath=html/body/div[2]/div/div/div[1]/div[2]/form/div[1]/div[1]/div/div[1]/input" 0 3000
      "test@demo.com"
  ; Fill "xpath=html/body/div[2]/div/div/div[1]/div[2]/form/div[1]/div[2]/div/div[1]/div[2]/input" 0 3000
      "pw1234-#"
  ; Click "xpath=html/body/div[2]/div/div/div[1]/div[2]/form/div[2]/button" 0 3000 5000
  ; Click "xpath=html/body/div[3]/aside/nav/a[4]" 0 3000 5000
  ; Click "xpath=html/body/div[3]/aside/nav/a[4]" 0 3000 5000
  ; Click "xpath=html/body/div[3]/main/div/div[2]/div/div[2]/div/div[2]/div[3]/button" 0 3000 5000
  ; Click "xpath=html/body/div[7]/div[5]/button[2]" 0 3000 5000
  ; Click "xpath=html/body/div[3]/main/div/div[2]/div/div[2]/div/div[2]/div[3]/button" 0 3000 5000
  ; Click "xpath=html/body/div[7]/div[5]/button[2]" 0 3000 5000
  ; Click "xpath=html/body/div[3]/main/header/div/div[2]/div[1]/button[1]" 0 3000 5000
  ; Click "xpath=html/body/div[3]/main/div/div[2]/div/div[2]/div/div[2]/div[3]/div/button[1]" 0 3000 5000
  ; Fill "xpath=html/body/div[6]/div[3]/textarea" 0 3000
      "Insufficient documentation and elevated risk flags â€” rejecting application. Applicant does not meet required verification criteria."
  ; Click "xpath=html/body/div[6]/button" 0 3000 5000
  ; Click "xpath=html/body/div[3]/main/div/div[2]/div/div[2]/div/div[2]/div[3]/button" 0 3000 5000
  ; Click "xpath=html/body/div[7]/div[5]/button[1]" 0 3000 5000 ].

Definition TC006 : script :=
  Script "TC006_Final_Risk_Manager_Review_and_Approval_Workflow.py" false TC006_steps
    None.

Definition TC008_steps : list step :=
  [ Goto "http://localhost:3000" "commit" 10000
  ; Click "xpath=html/body/main/section[1]/div[2]/div[2]/a[2]/button" 0 3000 5000
  ; Click "xpath=html/body/main/section[1]/div[2]/div[2]/a[2]/button" 0 3000 5000
  ; Fill "xpath=html/body/div[2]/div/div/div[1]/div[2]/form/div[1]/div[1]/div/div[1]/input" 0 3000
      "test@demo.com"
  ; Fill "xpath=html/body/div[2]/div/div/div[1]/div[2]/form/div[1]/div[2]/div/div[1]/div[2]/input" 0 3000
      "pw1234-#"
  ; Click "xpath=html/body/div[2]/div/div/div[1]/div[2]/form/div[2]/button" 0 3000 5000
  ; Click "xpath=html/body/div[3]/aside/nav/a[2]" 0 3000 5000
  ; Click "xpath=html/body/div[3]/aside/nav/a[2]" 0 3000 5000
  ; Click "xpath=html/body/div[3]/main/div/section/div[2]/div/div/table/tbody/tr[1]/td[7]/div/button" 0 3000 5000
  ; Click "xpath=html/body/div[6]/div/div[3]" 0 3000 5000
  ; Click "xpath=html/body/div[5]/div/div[3]" 0 3000 5000
  ; Click "xpath=html/body/div[3]/main/div/section/div[2]/div/div/table/tbody/tr[1]/td[7]/div/button" 0 3000 5000
  ; Click "xpath=html/body/div[6]/div/a" 0 3000 5000
  ; Click "xpath=html/body/div[5]/div/a" 0 3000 5000
  ; Click "xpath=html/body/div[2]/aside/nav/a[3]" 0 3000 5000
  ; Click "xpath=html/body/div[2]/aside/nav/a[3]" 0 3000 5000
  ; Click "xpath=html/body/div[2]/main/div/section/div[2]/div/div/div/table/tbody/tr[1]/td[7]/div/button[1]" 0 3000 5000
  ; Click "xpath=html/body/div[7]/div[3]/button[2]" 0 3000 5000
  ; Click "xpath=html/body/div[2]/main/div/section/div[2]/div/div/div/table/tbody/tr[1]/td[7]/div/button[1]" 0 3000 5000
  ; Click "xpath=html/body/div[7]/div[3]/button[2]" 0 3000 5000
  ; Click "xpath=html/body/div[2]/main/div/section/div[2]/div/div/div/table/tbody/tr[1]/td[7]/div/button[3]" 0 3000 5000
  ; Click "xpath=html/body/div[5]/div/a[2]" 0 3000 5000
  ; Click "xpath=html/body/div[5]/div/a[2]" 0 3000 5000 ].

Definition TC008 : script :=
  Script "TC008_Workflow_Pauses_and_Resumes_on_Manual_Review_with_Notifications.py" false TC008_steps
    None.

Definition TC009_steps : list step :=
  [ Goto "http://localhost:3000" "commit" 10000
  ; Click "xpath=html/body/main/section[1]/div[2]/div[2]/a[2]/button" 0 3000 5000
  ; Click "xpath=html/body/main/section[1]/div[2]/div[2]/a[2]/button" 0 3000 5000
  ; Fill "xpath=html/body/div[2]/div/div/div[1]/div[2]/form/div[1]/div[1]/div/div[1]/input" 0 3000
      "test@demo.com"
  ; Fill "xpath=html/body/div[2]/div/div/div[1]/div[2]/form/div[1]/div[2]/div/div[1]/div[2]/input" 0 3000
      "pw1234-#"
  ; Click "xpath=html/body/div[2]/div/div/div[1]/div[2]/form/div[2]/button" 0 3000 5000
  ; Click "xpath=html/body/div[3]/aside/nav/a[2]" 0 3000 5000
  ; Click "xpath=html/body/div[3]/aside/nav/a[2]" 0 3000 5000
  ; Click "xpath=html/body/div[3]/main/div/section/div[2]/div/div/table/tbody/tr[1]/td[7]/div/button" 0 3000 5000
  ; Click "xpath=html/body/div[6]/div/a" 0 3000 5000
  ; Click "xpath=html/body/div[5]/div/a" 0 3000 5000
  ; Click "xpath=html/body/div[2]/main/div/div/div[2]/div/div[1]/button[5]" 0 3000 5000
  ; Click "xpath=html/body/div[2]/aside/nav/a[3]" 0 3000 5000
  ; Click "xpath=html/body/div[2]/aside/nav/a[3]" 0 3000 5000
  ; Click "xpath=html/body/div[2]/main/div/section/div[2]/div/div/div/table/tbody/tr[1]/td[7]/div/button[2]" 0 3000 5000
  ; Click "xpath=html/body/div[2]/main/div/section/div[2]/div/div/div/table/tbody/tr[3]/td[7]/div/button[2]" 0 3000 5000
  ; Click "xpath=html/body/div[7]/div[3]/button[2]" 0 3000 5000 ].

Definition TC009 : script :=
  Script "TC009_Immediate_Denial_Handling_and_Notification.py" false TC009_steps
    (Some (Assertion "text=Application Denied" 3000
      "Test case failed: The test attempted to verify that submitting a denial immediately transitions the workflow to a 'Denied' state and displays an 'Application Denied' confirmation (and triggers notifications to the applicant and relevant managers), but the denial confirmation or notifications did not appear.")).

Definition TC010_steps : list step :=
  [ Goto "http://localhost:3000" "commit" 10000
  ; Click "xpath=html/body/main/section[1]/div[2]/div[2]/a[2]/button" 0 3000 5000
  ; Click "xpath=html/body/main/section[1]/div[2]/div[2]/a[2]/button" 0 3000 5000
  ; Fill "xpath=html/body/div[2]/div/div/div[1]/div[2]/form/div[1]/div[1]/div/div[1]/input" 0 3000
      "test@demo.com"
  ; Fill "xpath=html/body/div[2]/div/div/div[1]/div[2]/form/div[1]/div[2]/div/div[1]/div[2]/input" 0 3000
      "pw1234-#"
  ; Click "xpath=html/body/div[2]/div/div/div[1]/div[2]/form/div[2]/button" 0 3000 5000
  ; Click "xpath=html/body/div[3]/main/div/div[2]/div/div/div[2]/div[2]/div/div[4]/button" 0 3000 5000
  ; Click "xpath=html/body/div[6]/div/a[2]" 0 3000 5000
  ; Click "xpath=html/body/div[3]/main/div/div[2]/div/div/div[3]/div[2]/div/div[4]/button" 0 3000 5000
  ; Click "xpath=html/body/div[5]/div/a[1]" 0 3000 5000
  ; Click "xpath=html/body/div[2]/main/div/div/div[2]/div/div[1]/button[3]" 0 3000 5000
  ; Click "xpath=html/body/div[2]/main/div/div/div[2]/div/div[4]/div/div/div[2]/div/div[2]/button" 0 3000 5000
  ; Click "xpath=html/body/div[2]/main/header/div/div[2]/div[1]/button[2]" 0 3000 5000
  ; Goto "http://localhost:3000/dashboard/applicants/25" "commit" 10000
  ; Goto "http://localhost:3000/dashboard/applicants/25" "commit" 10000 ].

Definition TC010 : script :=
  Script "TC010_Sequential_and_Parallel_Workflow_Step_Execution_Validation.py" true TC010_steps
    (Some (Assertion "text=Workflow Progress Updated" 3000
      "Test case failed: The test attempted to verify that the workflow engine enforces sequential and parallel processing — preventing out-of-sequence form access and only advancing after prerequisites and all parallel branches complete. Expected to see 'Workflow Progress Updated' to confirm successful sequential progression and completion of parallel branches, but it was not found.")).

Definition TC011_steps : list step :=
  [ Goto "http://localhost:3000" "commit" 10000
  ; Click "xpath=html/body/main/section[1]/div[2]/div[2]/a[2]/button" 0 3000 5000
  ; Click "xpath=html/body/main/section[1]/div[2]/div[2]/a[2]/button" 0 3000 5000
  ; Fill "xpath=html/body/div[2]/div/div/div[1]/div[2]/form/div[1]/div[1]/div/div[1]/input" 0 3000
      "test@demo.com"
  ; Click "xpath=html/body/div[2]/div/div/div[1]/div[2]/form/div[2]/button" 0 3000 5000
  ; Fill "xpath=html/body/div[2]/div/div/div/div[2]/form/div/div/div[1]/div[2]/input" 0 3000
      "pw1234-#"
  ; Click "xpath=html/body/div[2]/div/div/div/div[2]/form/button[2]" 0 3000 5000
  ; Click "xpath=html/body/div[4]/aside/nav/a[2]" 0 3000 5000
  ; Click "xpath=html/body/div[3]/aside/nav/a[2]" 0 3000 5000
  ; Click "xpath=html/body/div[3]/main/div/section/div[2]/div/div/table/tbody/tr[1]/td[7]/div/button" 0 3000 5000
  ; Click "xpath=html/body/div[6]/div/div[3]" 0 3000 5000
  ; Click "xpath=html/body/div[5]/div/div[3]" 0 3000 5000
  ; Click "xpath=html/body/div[3]/main/div/section/div[2]/div/div/table/tbody/tr[2]/td[7]/div/button" 0 3000 5000
  ; Click "xpath=html/body/div[6]/div/div[3]" 0 3000 5000
  ; Click "xpath=html/body/div[3]/main/div/section/div[2]/div/div/table/tbody/tr[2]/td[7]/div/button" 0 3000 5000
  ; Click "xpath=html/body/div[5]/div/div[3]" 0 3000 5000
  ; Click "xpath=html/body/div[5]/div/div[3]" 0 3000 5000
  ; Click "xpath=html/body/div[3]/main/div/section/div[2]/div/div/table/tbody/tr[3]/td[7]/div/button" 0 3000 5000
  ; Click "xpath=html/body/div[5]/div/div[3]" 0 3000 5000
  ; Click "xpath=html/body/div[5]/div/div[3]" 0 3000 5000
  ; Click "xpath=html/body/div[3]/main/div/section/div[2]/div/div/table/tbody/tr[1]/td[7]/div/button" 0 3000 5000
  ; Click "xpath=html/body/div[5]/div/div[3]" 0 3000 5000
  ; Click "xpath=html/body/div[5]/div/div[3]" 0 3000 5000
  ; Click "xpath=html/body/div[5]/div/div[3]" 0 3000 5000 ].

Definition TC011 : script :=
  Script "TC011_Notification_Delivery_Timing_and_Content_Accuracy.py" false TC011_steps
    (Some (Assertion "text=Quotation Approved - Notification sent to test@demo.com" 3000
      "Test case failed: Expected a workflow notification indicating 'Quotation Approved' was sent to test@demo.com with the correct recipient, content, and context within the expected timeframe, but no such notification appeared.")).

Definition TC012_steps : list step :=
  [ Goto "http://localhost:3000" "commit" 10000
  ; Click "xpath=html/body/main/section[1]/div[2]/div[2]/a[2]/button" 0 3000 5000
  ; Click "xpath=html/body/main/section[1]/div[2]/div[2]/a[2]/button" 0 3000 5000
  ; Fill "xpath=html/body/div[2]/div/div/div[1]/div[2]/form/div[1]/div[1]/div/div[1]/input" 0 3000
      "test@demo.com"
  ; Fill "xpath=html/body/div[2]/div/div/div[1]/div[2]/form/div[1]/div[2]/div/div[1]/div[2]/input" 0 3000
      "pw1234-#"
  ; Click "xpath=html/body/div[2]/div/div/div[1]/div[2]/form/div[2]/button" 0 3000 5000
  ; Click "xpath=html/body/div[3]/main/header/div/div[2]/a/button" 0 3000 5000
  ; Click "xpath=html/body/div[3]/main/header/div/div[2]/a/button" 0 3000 5000
  ; Fill "xpath=html/body/div[2]/main/div/div/form/div[1]/div[1]/div[1]/input" 0 3000
      "Test Company Ltd"
  ; Fill "xpath=html/body/div[2]/main/div/div/form/div[1]/div[1]/div[2]/input" 0 3000
      "2026/000001/07"
  ; Fill "xpath=html/body/div[2]/main/div/div/form/div[1]/div[1]/div[3]/input" 0 3000
      "Financial Services"
  ; Fill "xpath=html/body/div[2]/main/div/div/form/div[2]/div/div[1]/input" 0 3000
      "Alice Tester"
  ; Fill "xpath=html/body/div[2]/main/div/div/form/div[2]/div/div[2]/input" 0 3000
      "alice@testcompany.co.za"
  ; Fill "xpath=html/body/div[2]/main/div/div/form/div[1]/div[1]/input" 0 3000
      "R1,000,000"
  ; Click "xpath=html/body/div[2]/main/div/div/form/div[4]/button[2]" 0 3000 5000
  ; Click "xpath=html/body/div[2]/aside/nav/a[3]" 0 3000 5000
  ; Click "xpath=html/body/div[2]/aside/nav/a[3]" 0 3000 5000
  ; Click "xpath=html/body/div[2]/main/div/section/div[2]/div/div/div/table/tbody/tr[1]/td[7]/div/button" 0 3000 5000
  ; Click "xpath=html/body/div[6]/div/a[2]" 0 3000 5000
  ; Click "xpath=html/body/div[2]/main/div/section/div[2]/div/div/div/table/tbody/tr[2]/td[7]/div/button[3]" 0 3000 5000
  ; Click "xpath=html/body/div[5]/div/a[2]" 0 3000 5000 ].

Definition TC012 : script :=
  Script "TC012_Logging_Completeness_and_Dashboard_Visibility.py" false TC012_steps
    None.

Definition TC013_steps : list step :=
  [ Goto "http://localhost:3000" "commit" 10000
  ; Click "xpath=html/body/main/section[1]/div[2]/div[2]/a[2]/button" 0 3000 5000
  ; Click "xpath=html/body/main/section[1]/div[2]/div[2]/a[2]/button" 0 3000 5000
  ; Fill "xpath=html/body/div[2]/div/div/div[1]/div[2]/form/div[1]/div[1]/div/div[1]/input" 0 3000
      "test@demo.com"
  ; Fill "xpath=html/body/div[2]/div/div/div[1]/div[2]/form/div[1]/div[2]/div/div[1]/div[2]/input" 0 3000
      "pw1234-#"
  ; Click "xpath=html/body/div[2]/div/div/div[1]/div[2]/form/div[2]/button" 0 3000 5000
  ; Click "xpath=html/body/div[3]/main/header/div/div[2]/a/button" 0 3000 5000
  ; Click "xpath=html/body/div[3]/main/header/div/div[2]/a/button" 0 3000 5000
  ; Fill "xpath=html/body/div[2]/main/div/div/form/div[1]/div[1]/div[1]/input" 0 3000
      "Test Company 1"
  ; Fill "xpath=html/body/div[2]/main/div/div/form/div[1]/div[1]/div[2]/input" 0 3000
      "2026/000001/07"
  ; Fill "xpath=html/body/div[2]/main/div/div/form/div[1]/div[1]/div[3]/input" 0 3000
      "Financial Services"
  ; Fill "xpath=html/body/div[2]/main/div/div/form/div[2]/div/div[1]/input" 0 3000
      "John Doe"
  ; Fill "xpath=html/body/div[2]/main/div/div/form/div[2]/div/div[2]/input" 0 3000
      "contact+1@company.co.za"
  ; Fill "xpath=html/body/div[2]/main/div/div/form/div[2]/div/div[3]/input" 0 3000
      "+27 82 555 0101"
  ; Click "xpath=html/body/div[2]/main/div/div/form/div[4]/button[2]" 0 3000 5000
  ; Click "xpath=html/body/div[2]/aside/nav/a[2]" 0 3000 5000
  ; Click "xpath=html/body/div[2]/aside/nav/a[2]" 0 3000 5000
  ; Click "xpath=html/body/div[2]/main/div/section/div[2]/div/div/table/tbody/tr[1]/td[7]/div/button" 0 3000 5000
  ; Click "xpath=html/body/div[5]/div/div[3]" 0 3000 5000 ].

Definition TC013 : script :=
  Script "TC013_Workflow_Automation_Rate_and_Completion_Time_Validation.py" false TC013_steps
    (Some (Assertion "text=Automation Achieved: 80% - Workflow Time Reduced by 30%" 3000
      "Test case failed: the test was verifying that standard onboarding cases achieve at least 80% automation and that overall workflow completion time is reduced by 30% compared to the baseline, but the success banner 'Automation Achieved: 80% - Workflow Time Reduced by 30%' did not appear")).

Definition TC015_steps : list step :=
  [ Goto "http://localhost:3000" "commit" 10000
  ; Click "xpath=html/body/main/section[1]/div[2]/div[2]/a[2]/button" 0 3000 5000
  ; Click "xpath=html/body/main/section[1]/div[2]/div[2]/a[2]/button" 0 3000 5000
  ; Goto "http://localhost:3000" "commit" 10000
  ; Click "xpath=html/body/main/section[1]/div[2]/div[2]/a[1]/button" 0 3000 5000
  ; Click "xpath=html/body/main/section[1]/div[2]/div[2]/a[1]/button" 0 3000 5000
  ; Goto "http://localhost:3000" "commit" 10000
  ; Click "xpath=html/body/main/section[1]/div[2]/div[2]/a[2]/button" 0 3000 5000
  ; Click "xpath=html/body/main/section[1]/div[2]/div[2]/a[1]/button" 0 3000 5000
  ; Goto "http://localhost:3000" "commit" 10000
  ; Click "xpath=html/body/main/section[1]/div[2]/div[2]/a[2]/button" 0 3000 5000
  ; Click "xpath=html/body/main/section[1]/div[2]/div[2]/a[1]/button" 0 3000 5000
  ; Goto "http://localhost:3000" "commit" 10000
  ; Click "xpath=html/body/main/section[1]/div[2]/div[2]/a[2]/button" 0 3000 5000
  ; Click "xpath=html/body/main/section[1]/div[2]/div[2]/a[2]/button" 0 3000 5000
  ; Goto "http://localhost:3000" "commit" 10000
  ; Click "xpath=html/body/main/section[1]/div[2]/div[2]/a[2]/button" 0 3000 5000
  ; Click "xpath=html/body/main/section[1]/div[2]/div[2]/a[2]/button" 0 3000 5000 ].

Definition TC015 : script :=
  Script "TC015_Error_Handling_for_AI_Service_Failures.py" false TC015_steps
    None.

Definition TC016_steps : list step :=
  [ Goto "http://localhost:3000" "commit" 10000
  ; Click "xpath=html/body/main/section[1]/div[2]/div[2]/a[2]/button" 0 3000 5000
  ; Click "xpath=html/body/main/section[1]/div[2]/div[2]/a[2]/button" 0 3000 5000
  ; Fill "xpath=html/body/div[2]/div/div/div[1]/div[2]/form/div[1]/div[1]/div/div[1]/input" 0 3000
      "test@demo.com"
  ; Click "xpath=html/body/div[2]/div/div/div[1]/div[2]/form/div[2]/button" 0 3000 5000
  ; Fill "xpath=html/body/div[2]/div/div/div[1]/div[2]/form/div[1]/div[2]/div/div[1]/div[1]/label" 0 3000
      "pw1234-#"
  ; Click "xpath=html/body/div[2]/div/div/div/div[2]/form/button[2]" 0 3000 5000
  ; Click "xpath=html/body/div[3]/main/div/div[2]/div/div/div[3]/div[2]/div/div[4]/button" 0 3000 5000
  ; Click "xpath=html/body/div[6]/div/a[2]" 0 3000 5000
  ; Click "xpath=html/body/div[5]/div/a[2]" 0 3000 5000
  ; Click "xpath=html/body/div[2]/main/header/div/div[2]/button" 0 3000 5000
  ; Click "xpath=html/body/div[6]/div" 0 3000 5000
  ; Click "xpath=html/body/div[5]/div" 0 3000 5000
  ; Click "xpath=html/body/div[2]/main/header/div/div[2]/button" 0 3000 5000
  ; Click "xpath=html/body/div[2]/main/header/div/div[2]/button" 0 3000 5000
  ; Click "xpath=html/body/div[2]/main/header/div/div[2]/button" 0 3000 5000
  ; Click "xpath=html/body/div[2]/aside/div[1]/div/div/div" 0 3000 5000 ].

Definition TC016 : script :=
  Script "TC016_Edge_Case_Partial_Completion_of_Parallel_Workflow_Branches.py" false TC016_steps
    (Some (Assertion "text=Workflow Paused - waiting for other parallel branches" 3000
      "Test case failed: expected the workflow to remain paused after completing only one parallel branch (indicator 'Workflow Paused - waiting for other parallel branches' should be visible), but the paused state did not appear")).

Definition TC018_steps : list step :=
  [ Goto "http://localhost:3000" "commit" 10000
  ; Click "xpath=html/body/main/section[1]/div[2]/div[2]/a[2]/button" 0 3000 5000
  ; Click "xpath=html/body/main/section[1]/div[2]/div[2]/a[2]/button" 0 3000 5000
  ; Fill "xpath=html/body/div[2]/div/div/div[1]/div[2]/form/div[1]/div[1]/div/div[1]/input" 0 3000
      "test@demo.com"
  ; Click "xpath=html/body/div[2]/div/div/div[1]/div[2]/form/div[2]/button" 0 3000 5000
  ; Fill "xpath=html/body/div[2]/div/div/div/div[2]/form/div/div/div[1]/div[2]/input" 0 3000
      "pw1234-#"
  ; Click "xpath=html/body/div[2]/div/div/div/div[2]/form/button[2]" 0 3000 5000
  ; Click "xpath=html/body/div[2]/div/div/div/div[2]/form/button[2]" 0 3000 5000
  ; Click "xpath=html/body/div[3]/main/header/div/div[2]/a/button" 0 3000 5000
  ; Click "xpath=html/body/div[3]/main/header/div/div[2]/a/button" 0 3000 5000
  ; Fill "xpath=html/body/div[2]/main/div/div/form/div[1]/div[1]/div[1]/input" 0 3000
      "Acme Lending Co"
  ; Fill "xpath=html/body/div[2]/main/div/div/form/div[1]/div[1]/div[2]/input" 0 3000
      "2025/000001/07"
  ; Fill "xpath=html/body/div[2]/main/div/div/form/div[1]/div[1]/div[3]/input" 0 3000
      "Financial Services"
  ; Fill "xpath=html/body/div[2]/main/div/div/form/div[1]/div[1]/div[4]/input" 0 3000
      "250"
  ; Fill "xpath=html/body/div[2]/main/div/div/form/div[1]/div[1]/input" 0 3000
      "R500,000"
  ; Fill "xpath=html/body/div[2]/main/div/div/form/div[2]/div/div[1]/input" 0 3000
      "Jane Doe"
  ; Fill "xpath=html/body/div[2]/main/div/div/form/div[2]/div/div[2]/input" 0 3000
      "contact@acme.co.za"
  ; Fill "xpath=html/body/div[2]/main/div/div/form/div[2]/div/div[3]/input" 0 3000
      "+27 82 123 4567"
  ; Click "xpath=html/body/div[2]/main/div/div/form/div[4]/button[2]" 0 3000 5000
  ; Click "xpath=html/body/div[2]/main/div/div/div[2]/div/div[1]/button[3]" 0 3000 5000
  ; Click "xpath=html/body/div[2]/main/header/div/div[2]/div[1]/button[1]" 0 3000 5000
  ; Click "xpath=html/body/div[2]/main/header/div/div[2]/div[1]/button[1]" 0 3000 5000 ].

Definition TC018 : script :=
  Script "TC018_Form_Validation_on_Facility_Application_and_Mandate_Documents.py" false TC018_steps
    None.

Definition corpus : list script :=
  [ TC001; TC002; TC003; TC004; TC005; TC006; TC008; TC009; TC010; TC011; TC012; TC013; TC015; TC016; TC018 ].

(** ** Reading a trace *)

(** The three handles of a session. *)
Inductive handle : Type := Runtime | Engine | BrowsingContext.

(** Equality of handles. *)
Definition handle_eqb (a b : handle) : bool :=
  match a, b with
  | Runtime, Runtime | Engine, Engine | BrowsingContext, BrowsingContext => true
  | _, _ => false
  end.

(** The call that creates a handle. *)
Definition acquires (c : call) : option handle :=
  match c with
  | Start => Some Runtime
  | Launch _ _ => Some Engine
  | NewContext => Some BrowsingContext
  | _ => None
  end.

(** The call that gives a handle back. *)
Definition releases (c : call) : option handle :=
  match c with
  | Stop => Some Runtime
  | BrowserClose => Some Engine
  | ContextClose => Some BrowsingContext
  | _ => None
  end.

(** Is it the handle [h]? *)
Definition is_handle (h : handle) (o : option handle) : bool :=
  match o with
  | Some h' => handle_eqb h h'
  | None => false
  end.

(** A creating call that returned. *)
Definition acquire_event (h : handle) (e : event) : bool :=
  match e with
  | Call c None => is_handle h (acquires c)
  | _ => false
  end.

(** A releasing call that was made, whether it returned or raised. *)
Definition release_event (h : handle) (e : event) : bool :=
  match e with
  | Call c _ => is_handle h (releases c)
  | _ => false
  end.

(** A releasing call that raised. *)
Definition release_failed (e : event) : bool :=
  match e with
  | Call c (Some _) => match releases c with Some _ => true | None => false end
  | _ => false
  end.

(** How many events of the trace satisfy [f]. *)
Definition count (f : event -> bool) (tr : list event) : nat :=
  List.length (filter f tr).

(** How many times [h] was acquired. *)
Definition acquired (h : handle) (tr : list event) : nat :=
  count (acquire_event h) tr.

(** How many times the release of [h] was called. *)
Definition released (h : handle) (tr : list event) : nat :=
  count (release_event h) tr.

(** The variable of a handle in the state. *)
Definition holds (h : handle) (s : state) : bool :=
  match h with
  | Runtime => match pw s with Some _ => true | None => false end
  | Engine => match browser s with Some _ => true | None => false end
  | BrowsingContext => match context s with Some _ => true | None => false end
  end.

(** Every handle that was created is given back once, and none twice. *)
Definition session_released (tr : list event) : Prop :=
  forall h : handle,
    released h tr = acquired h tr /\ (acquired h tr <= 1)%nat.

(** The calls of the [finally] block for a state, in source order. *)
Definition release_plan (s : state) : list call :=
  (if holds BrowsingContext s then [ContextClose] else []) ++
  (if holds Engine s then [BrowserClose] else []) ++
  (if holds Runtime s then [Stop] else []).

(** The event of a call that returned. *)
Definition returned (c : call) : event := Call c None.

(** A state in which an acquisition is missing. *)
Definition partially_acquired (s : state) : Prop :=
  pw s = None \/ browser s = None \/ context s = None.

(** The two kinds of best-effort wait. *)
Definition is_load_wait (c : call) : bool :=
  match c with
  | PageWaitForLoadState _ _ _ | FrameWaitForLoadState _ _ _ => true
  | _ => false
  end.

(** The calls of a trace, in order. *)
Definition calls_of (tr : list event) : list call :=
  flat_map (fun e => match e with Call c _ => [c] | _ => [] end) tr.


(** The click or fill of a step: its target and its explicit timeout. *)
Definition interaction (c : call) : option (locator * option Z) :=
  match c with
  | LocatorClick l t => Some (l, t)
  | LocatorFill l _ t => Some (l, t)
  | _ => None
  end.

(** Playwright's rule for an action timeout: the explicit argument, else the
    last default set on the context, else 30000 ms. *)
Definition default_timeout (hist : list event) : Z :=
  fold_left
    (fun d e => match e with
                | Call (SetDefaultTimeout ms) None => ms
                | _ => d
                end)
    hist 30000.

(** The timeout an action runs under, after the history [hist]. *)
Definition effective_timeout (hist : list event) (t : option Z) : Z :=
  match t with
  | Some ms => ms
  | None => default_timeout hist
  end.

(** A click step passes [timeout=ms]. *)
Definition click_timeout_is (ms : Z) (st : step) : bool :=
  match st with
  | Click _ _ _ t => Z.eqb t ms
  | _ => true
  end.

(** What a step does to the application, without the page it lands on. *)
Inductive action : Type :=
| AGoto (url : string)
| AClick (selector : string) (n : nat)
| AFill (selector : string) (n : nat) (value : string).

(** The action a step declares. *)
Definition declared (st : step) : action :=
  match st with
  | Goto url _ _ => AGoto url
  | Click selector n _ _ => AClick selector n
  | Fill selector n _ value => AFill selector n value
  end.

(** The action a call makes, if it is one. *)
Definition action_of_call (c : call) : option action :=
  match c with
  | PageGoto _ url _ _ => Some (AGoto url)
  | LocatorClick l _ => Some (AClick (loc_selector l) (loc_nth l))
  | LocatorFill l value _ => Some (AFill (loc_selector l) (loc_nth l) value)
  | _ => None
  end.

(** The actions of a trace in the order they were made, each with whether it
    returned. *)
Definition performed (tr : list event) : list (action * bool) :=
  flat_map
    (fun e =>
       match e with
       | Call c r =>
           match action_of_call c with
           | Some a => [(a, match r with None => true | Some _ => false end)]
           | None => []
           end
       | _ => []
       end) tr.

(** The actions a file declares, the first navigation included. *)
Definition declared_actions (sc : script) : list action :=
  AGoto "http://localhost:3000" :: map declared (steps sc).

(** An action that returned. *)
Definition completed (a : action) : action * bool := (a, true).

(** Was a visibility check made at all? *)
Definition visibility_checked (tr : list event) : bool :=
  existsb (fun c => match c with ToBeVisible _ _ _ => true | _ => false end)
    (calls_of tr).

(** ** Reading a script *)

(** Is [needle] a substring of [hay]? *)
Fixpoint contains (needle hay : string) : bool :=
  if String.prefix needle hay then true
  else match hay with
       | EmptyString => false
       | String _ rest => contains needle rest
       end.

(** The values a file fills in, in order. *)
Definition fill_values (sts : list step) : list string :=
  flat_map (fun st => match st with Fill _ _ _ v => [v] | _ => [] end) sts.

(** Does the file end with an assertion block? *)
Definition has_assertion (sc : script) : bool :=
  match assertion sc with
  | Some _ => true
  | None => false
  end.

(** How the rejection reason of the sixth file begins. *)
Definition rejection_reason : string :=
  "Insufficient documentation and elevated risk flags".

(** Does the file fill in that rejection reason? *)
Definition submits_rejection_reason (sc : script) : bool :=
  existsb (String.prefix rejection_reason) (fill_values (steps sc)).

(** Does the assertion of the file look for the visible text [text]? *)
Definition expects_text (text : string) (sc : script) : bool :=
  match assertion sc with
  | Some a => String.eqb (expected a) (String.append "text=" text)
  | None => false
  end.

(** ** Some worlds *)

(** A world in which the calls selected by [fails] raise and every other call
    returns; one page, a fixed list of frames. *)
Definition world_where (fails : call -> option exn) (frames : list frame)
  : world :=
  World (fun _ c => fails c) (fun _ => 1%nat) (fun _ => [1%nat])
        (fun _ _ => frames).

(** Nothing ever raises. *)
Definition calm : world := world_where (fun _ => None) [10%nat; 11%nat].

(** Closing the context raises. *)
Definition context_close_fails : world :=
  world_where
    (fun c => match c with
              | ContextClose => Some (Error "Target closed")
              | _ => None
              end) [10%nat].

(** The browser does not launch, and stopping the runtime raises. *)
Definition launch_and_stop_fail : world :=
  world_where
    (fun c => match c with
              | Launch _ _ => Some (Error "Executable doesn't exist")
              | Stop => Some (Exception "Connection closed")
              | _ => None
              end) [].

(** Every wait for [domcontentloaded] times out. *)
Definition slow_dom : world :=
  world_where
    (fun c => if is_load_wait c
              then Some (TimeoutError "Timeout 3000ms exceeded.")
              else None) [10%nat; 11%nat; 12%nat].

(** The expected text never shows: a visibility check, if one is made, raises
    the assertion error of the library. *)
Definition text_absent : world :=
  world_where
    (fun c => match c with
              | ToBeVisible _ _ _ =>
                  Some (AssertionError "Locator expected to be visible")
              | _ => None
              end) [10%nat; 11%nat].

(** The first click that returns opens a second page. *)
Definition popup : world :=
  World (fun _ _ => None) (fun _ => 1%nat)
        (fun hist =>
           if existsb (fun e => match e with
                                | Call (LocatorClick _ _) None => true
                                | _ => false
                                end) hist
           then [1%nat; 2%nat] else [1%nat])
        (fun _ _ => [10%nat]).

(** A second page opens while a settle delay is running: the page list has
    two pages as soon as one settle delay has returned. *)
Definition late_popup : world :=
  World (fun _ _ => None) (fun _ => 1%nat)
        (fun hist =>
           if existsb (fun e => match e with
                                | Call (WaitForTimeout _ _) None => true
                                | _ => false
                                end) hist
           then [1%nat; 2%nat] else [1%nat])
        (fun _ _ => [10%nat]).

(** The third click times out. *)
Definition third_click_fails : world :=
  World (fun hist c =>
           match c with
           | LocatorClick _ _ =>
               if Nat.eqb (List.length (filter
                    (fun e => match e with
                              | Call (LocatorClick _ _) _ => true
                              | _ => false
                              end) hist)) 2
               then Some (TimeoutError "Timeout 5000ms exceeded.")
               else None
           | _ => None
           end)
        (fun _ => 1%nat) (fun _ => [1%nat]) (fun _ _ => [10%nat]).

(** The state the [finally] block finds when only Playwright was started. *)
Definition only_runtime : state := State (Some PlaywrightObj) None None [].

(** The state the [finally] block finds when everything was opened. *)
Definition all_open : state :=
  State (Some PlaywrightObj) (Some BrowserObj) (Some ContextObj) [].

(** ** Devices for the proofs *)

(** A state with some more events in its trace. *)
Definition with_events (s : state) (evs : list event) : state :=
  State (pw s) (browser s) (context s) (trace s ++ evs).

(** Awaiting a list of calls one after the other. *)
Fixpoint await_all (cs : list call) : M unit :=
  match cs with
  | [] => ret tt
  | c :: rest => await c ;; await_all rest
  end.

(** The trace of [open_session] when every call returns. *)
Definition session_events : list event :=
  [ Call Start None; Call (Launch true chromium_args) None;
    Call NewContext None; Call (SetDefaultTimeout 5000) None;
    Call NewPage None ].

(** The calls of [open_session]. *)
Definition session_call (c : call) : bool :=
  match c with
  | Start | Launch _ _ | NewContext | SetDefaultTimeout _ | NewPage => true
  | _ => false
  end.

(** The events of [open_session]. *)
Definition session_event (e : event) : bool :=
  match e with
  | Call c _ => session_call c
  | _ => false
  end.

(** The calls of the [try] body once the session is open. *)
Definition body_call (c : call) : bool :=
  match c with
  | PageGoto _ _ _ _ | PageWaitForLoadState _ _ _
  | FrameWaitForLoadState _ _ _ | WaitForTimeout _ _ | LocatorClick _ _
  | LocatorFill _ _ _ | ToBeVisible _ _ _ | Sleep _ => true
  | _ => false
  end.

(** The events of the [try] body once the session is open. *)
Definition body_event (e : event) : bool :=
  match e with
  | Call c _ => body_call c
  | _ => true
  end.

(** The [try] body from the first navigation on, for the page [p] that
    [open_session] returned. *)
Definition after_session (globals : list string) (sc : script) (p : page)
  : M unit :=
  (await (PageGoto p "http://localhost:3000" "commit" 10000) ;;
   stabilize p ;;
   exec_steps p (steps sc)) ;;
  check_assertion globals (assertion sc) ;;
  await (Sleep 5).

(** One for [true], zero for [false]. *)
Definition b2n (b : bool) : nat := if b then 1%nat else 0%nat.

(** [perf] is what a sequential run of the declared actions [decl] can
    leave: the first actions, all returned, then possibly the next one,
    raised, and nothing after it. *)
Definition in_order (decl : list action) (perf : list (action * bool)) : Prop :=
  exists done rest,
    decl = done ++ rest /\
    (perf = map completed done \/
     exists a rest', rest = a :: rest' /\
                     perf = map completed done ++ [(a, false)]).

(** [m] makes the actions [decl] in order: all of them when it returns, a
    part of them cut at the first failure when it raises. *)
Definition performs {A : Type} (m : M A) (decl : list action) : Prop :=
  forall w s r s',
    m w s = (r, s') ->
    exists evs,
      trace s' = trace s ++ evs /\
      in_order decl (performed evs) /\
      (forall a, r = Ok a -> performed evs = map completed decl).

(** Events other than a click, a fill or a change of the default timeout. *)
Definition quiet_event (e : event) : bool :=
  match e with
  | Call (LocatorClick _ _) _ | Call (LocatorFill _ _ _) _
  | Call (SetDefaultTimeout _) _ => false
  | _ => true
  end.

(** Every click and fill of the trace comes right after a read of the page
    list and a settle delay that returned, is aimed at the last page of the
    list that the world showed at that read, and runs under 5000 ms. *)
Definition targeted (w : world) (tr : list event) : Prop :=
  forall pre post c r loc t,
    tr = pre ++ Call c r :: post ->
    interaction c = Some (loc, t) ->
    exists pre' l p ms,
      pre = pre' ++ [Pages l; Call (WaitForTimeout p ms) None] /\
      l = context_pages w pre' /\
      last_opt l = Some (loc_page loc) /\
      effective_timeout pre t = 5000.

(** The invariant of the body once the session is open. *)
Definition on_target (w : world) (s : state) : Prop :=
  targeted w (trace s) /\ default_timeout (trace s) = 5000.

(** [m] keeps the invariant. *)
Definition keeps_target {A : Type} (w : world) (m : M A) : Prop :=
  forall s s' r, on_target w s -> m w s = (r, s') -> on_target w s'.

(** [m] leaves the three variables alone and only appends events that
    satisfy [P]. *)
Definition appends {A : Type} (P : event -> Prop) (m : M A) : Prop :=
  forall w s r s',
    m w s = (r, s') ->
    pw s' = pw s /\ browser s' = browser s /\ context s' = context s /\
    exists evs, trace s' = trace s ++ evs /\ Forall P evs.

(** ** Further readings of a trace *)

(** [m] only appends events that satisfy [P]; the variables may change. *)
Definition emits {A : Type} (P : event -> Prop) (m : M A) : Prop :=
  forall w s r s',
    m w s = (r, s') ->
    exists evs, trace s' = trace s ++ evs /\ Forall P evs.

(** A visibility check. *)
Definition is_visibility_check (e : event) : bool :=
  match e with
  | Call (ToBeVisible _ _ _) _ => true
  | _ => false
  end.

(** The final [asyncio.sleep]. *)
Definition is_sleep (e : event) : bool :=
  match e with
  | Call (Sleep _) _ => true
  | _ => false
  end.

(** A call of the [finally] block. *)
Definition is_release (e : event) : bool :=
  match e with
  | Call c _ => match releases c with Some _ => true | None => false end
  | _ => false
  end.

(** An event that does not stand for a failure of the run: a read, a call
    that returned, or a wait for the load state that raised an error of the
    automation library. *)
Definition benign (e : event) : bool :=
  match e with
  | Call c (Some x) => is_load_wait c && isinstance_Error x
  | _ => true
  end.

(** When [m] returns, every event it appended is benign. *)
Definition strict {A : Type} (m : M A) : Prop :=
  forall w s r s',
    m w s = (r, s') ->
    exists evs,
      trace s' = trace s ++ evs /\
      (forall a, r = Ok a -> Forall (fun e => benign e = true) evs).

(** The calls made on the variable [page] go to the page [p]. *)
Definition on_page (p : page) (e : event) : bool :=
  match e with
  | Call (PageGoto q _ _ _) _ | Call (PageWaitForLoadState q _ _) _
  | Call (WaitForTimeout q _) _ => Nat.eqb q p
  | _ => true
  end.

(** The wait of the loop for one frame. *)
Definition frame_wait (f : frame) : call :=
  FrameWaitForLoadState f "domcontentloaded" 3000.

(** The literals that all the steps of all the files share. *)
Definition uniform_step (st : step) : bool :=
  match st with
  | Goto url wait_until timeout =>
      String.prefix "http://localhost:3000" url &&
      String.eqb wait_until "commit" && Z.eqb timeout 10000
  | Click selector n settle timeout =>
      String.prefix "xpath=html/body/" selector && Nat.eqb n 0 &&
      Z.eqb settle 3000 && Z.eqb timeout 5000
  | Fill selector n settle _ =>
      String.prefix "xpath=html/body/" selector && Nat.eqb n 0 &&
      Z.eqb settle 3000
  end.

(** The context has no page at all. *)
Definition no_page : world :=
  World (fun _ _ => None) (fun _ => 1%nat) (fun _ => []) (fun _ _ => []).

(** The application is not running: every navigation is refused. *)
Definition server_down : world :=
  world_where
    (fun c => match c with
              | PageGoto _ _ _ _ => Some (Error "net::ERR_CONNECTION_REFUSED")
              | _ => None
              end) [10%nat].

(** The calls a step awaits, for the page [p] of the session and the page
    [fr] read from the context. *)
Definition step_calls (p fr : page) (st : step) : list call :=
  match st with
  | Goto url wait_until timeout => [PageGoto p url wait_until timeout]
  | Click selector n settle timeout =>
      [WaitForTimeout p settle;
       LocatorClick (Locator fr selector n) (Some timeout)]
  | Fill selector n settle value =>
      [WaitForTimeout p settle;
       LocatorFill (Locator fr selector n) value None]
  end.

(** The literals a call of a run is expected to carry. *)
Definition expected_call (c : call) : bool :=
  match c with
  | Launch headless _ => headless
  | SetDefaultTimeout ms => Z.eqb ms 5000
  | PageGoto _ url wait_until timeout =>
      String.prefix "http://localhost:3000" url &&
      String.eqb wait_until "commit" && Z.eqb timeout 10000
  | PageWaitForLoadState _ state timeout
  | FrameWaitForLoadState _ state timeout =>
      String.eqb state "domcontentloaded" && Z.eqb timeout 3000
  | WaitForTimeout _ ms => Z.eqb ms 3000
  | LocatorClick l t =>
      String.prefix "xpath=html/body/" (loc_selector l) &&
      Nat.eqb (loc_nth l) 0 &&
      match t with Some ms => Z.eqb ms 5000 | None => false end
  | LocatorFill l _ t =>
      String.prefix "xpath=html/body/" (loc_selector l) &&
      Nat.eqb (loc_nth l) 0 &&
      match t with Some _ => false | None => true end
  | ToBeVisible _ _ _ => false
  | Sleep seconds => Z.eqb seconds 5
  | _ => true
  end.

(** An event whose call, if it is one, carries the expected literals. *)
Definition expected_event (e : event) : bool :=
  match e with
  | Call c _ => expected_call c
  | _ => true
  end.

(** * Properties *)

(** Case analysis on every answer of the world that the goal looks at. *)
Ltac case_outcomes :=
  repeat (match goal with
          | |- context [outcome ?w ?h ?c] => destruct (outcome w h c)
          end; simpl).

(** ** Counting events *)

Lemma count_app (f : event -> bool) (a b : list event) :
  count f (a ++ b) = (count f a + count f b)%nat.
Proof.
  unfold count. rewrite filter_app. apply length_app.
Qed.

Lemma count_none (f : event -> bool) (evs : list event) :
  Forall (fun e => f e = false) evs -> count f evs = 0%nat.
Proof.
  unfold count. induction 1 as [|e evs He _ IH]; simpl.
  - reflexivity.
  - rewrite He. exact IH.
Qed.

(** ** Sequencing *)

Lemma bind_ok (A B : Type) (m : M A) (k : A -> M B) (w : world)
  (s s1 : state) (a : A) :
  m w s = (Ok a, s1) -> bind m k w s = k a w s1.
Proof.
  intros H. unfold bind. rewrite H. reflexivity.
Qed.

Lemma bind_raise (A B : Type) (m : M A) (k : A -> M B) (w : world)
  (s s1 : state) (e : exn) :
  m w s = (Raise e, s1) -> bind m k w s = (Raise e, s1).
Proof.
  intros H. unfold bind. rewrite H. reflexivity.
Qed.

(** ** Sequencing only appends *)

Section Appends.

Variable P : event -> Prop.

Lemma appends_ret (A : Type) (a : A) : appends P (ret a).
Proof.
  intros w s r s' H. inversion H; subst. repeat split.
  exists []. rewrite app_nil_r. split; [reflexivity | constructor].
Qed.

Lemma appends_raise (A : Type) (e : exn) : appends P (@raise A e).
Proof.
  intros w s r s' H. inversion H; subst. repeat split.
  exists []. rewrite app_nil_r. split; [reflexivity | constructor].
Qed.

Lemma appends_bind (A B : Type) (m : M A) (k : A -> M B) :
  appends P m -> (forall a, appends P (k a)) -> appends P (bind m k).
Proof.
  intros Hm Hk w s r s' H. unfold bind in H.
  destruct (m w s) as [[a|e] s1] eqn:E.
  - destruct (Hm _ _ _ _ E) as (Hp & Hb & Hc & ev1 & Ht1 & F1).
    destruct (Hk a _ _ _ _ H) as (Hp' & Hb' & Hc' & ev2 & Ht2 & F2).
    repeat split; try congruence.
    exists (ev1 ++ ev2). split.
    + rewrite Ht2, Ht1, app_assoc. reflexivity.
    + apply Forall_app. split; assumption.
  - inversion H; subst. exact (Hm _ _ _ _ E).
Qed.

Lemma appends_try_except (A : Type) (m : M A) (catches : exn -> bool)
  (handler : exn -> M A) :
  appends P m -> (forall e, appends P (handler e)) ->
  appends P (try_except m catches handler).
Proof.
  intros Hm Hh w s r s' H. unfold try_except in H.
  destruct (m w s) as [[a|e] s1] eqn:E.
  - inversion H; subst. exact (Hm _ _ _ _ E).
  - destruct (catches e).
    + destruct (Hm _ _ _ _ E) as (Hp & Hb & Hc & ev1 & Ht1 & F1).
      destruct (Hh e _ _ _ _ H) as (Hp' & Hb' & Hc' & ev2 & Ht2 & F2).
      repeat split; try congruence.
      exists (ev1 ++ ev2). split.
      * rewrite Ht2, Ht1, app_assoc. reflexivity.
      * apply Forall_app. split; assumption.
    + inversion H; subst. exact (Hm _ _ _ _ E).
Qed.

Lemma appends_await (c : call) :
  (forall r, P (Call c r)) -> appends P (await c).
Proof.
  intros HP w s r s' H. unfold await in H.
  destruct (outcome w (trace s) c) as [e|] eqn:E; inversion H; subst;
    simpl; repeat split; eexists; (split; [reflexivity|]);
    constructor; auto.
Qed.

Lemma appends_best_effort (m : M unit) :
  appends P m -> appends P (best_effort m).
Proof.
  intros Hm. apply appends_try_except; [exact Hm|].
  intros e. apply appends_ret.
Qed.

Lemma appends_wait_frames (fs : list frame) :
  (forall c r, is_load_wait c = true -> P (Call c r)) ->
  appends P (wait_frames fs).
Proof.
  intros HP. induction fs as [|f fs IH]; simpl.
  - apply appends_ret.
  - apply appends_bind; [|intros _; exact IH].
    apply appends_best_effort, appends_await. intros r. apply HP. reflexivity.
Qed.

Lemma appends_read_frames (p : page) :
  (forall l, P (Frames p l)) -> appends P (read_frames p).
Proof.
  intros HP w s r s' H. inversion H; subst. simpl. repeat split.
  eexists. split; [reflexivity|]. constructor; auto.
Qed.

Lemma appends_stabilize (p : page) :
  (forall c r, is_load_wait c = true -> P (Call c r)) ->
  (forall l, P (Frames p l)) ->
  appends P (stabilize p).
Proof.
  intros HW HF. unfold stabilize.
  apply appends_bind.
  - apply appends_best_effort, appends_await. intros r. apply HW. reflexivity.
  - intros _. apply appends_bind.
    + apply appends_read_frames. exact HF.
    + intros fs. apply appends_wait_frames. exact HW.
Qed.

Lemma appends_last_page :
  (forall l, P (Pages l)) -> appends P last_page.
Proof.
  intros HP w s r s' H. unfold last_page in H.
  destruct (context s) eqn:Ec.
  - destruct (last_opt (context_pages w (trace s))); inversion H; subst;
      simpl; rewrite ?Ec; repeat split; eexists; (split; [reflexivity|]);
      constructor; auto.
  - inversion H; subst. repeat split; try assumption.
    exists []. rewrite app_nil_r. split; [reflexivity | constructor].
Qed.

Lemma appends_load_global (g : list string) (name : string) :
  appends P (load_global g name).
Proof.
  unfold load_global.
  destruct (bound_in g name || bound_in builtins name).
  - apply appends_ret.
  - apply appends_raise.
Qed.

Lemma appends_check_assertion (g : list string) (a : option assertion_block) :
  (forall l, P (Pages l)) ->
  (forall p sel t r, P (Call (ToBeVisible p sel t) r)) ->
  appends P (check_assertion g a).
Proof.
  intros HP HV. destruct a as [a|]; simpl.
  - apply appends_bind; [apply appends_last_page; exact HP|].
    intros fr. apply appends_try_except.
    + apply appends_bind; [apply appends_load_global|].
      intros _. apply appends_await. intros r. apply HV.
    + intros e. apply appends_raise.
  - apply appends_ret.
Qed.

Lemma appends_if_set (A : Type) (v : option A) (m : M unit) :
  appends P m -> appends P (if_set v m).
Proof.
  intros Hm. destruct v; simpl; [exact Hm | apply appends_ret].
Qed.

Lemma appends_read (A : Type) (f : state -> A) : appends P (read f).
Proof.
  intros w s r s' H. inversion H; subst. repeat split.
  exists []. rewrite app_nil_r. split; [reflexivity | constructor].
Qed.

Lemma appends_teardown :
  (forall c r, releases c <> None -> P (Call c r)) -> appends P teardown.
Proof.
  intros HP. unfold teardown.
  repeat (first
    [ apply appends_bind; [|intros ?]
    | apply appends_read
    | apply appends_if_set
    | apply appends_await; intros r; apply HP; discriminate ]).
Qed.

End Appends.

(** ** The [finally] block *)

Lemma with_events_nil (s : state) : with_events s [] = s.
Proof.
  destruct s. unfold with_events. simpl. rewrite app_nil_r. reflexivity.
Qed.

Lemma with_events_app (s : state) (a b : list event) :
  with_events (with_events s a) b = with_events s (a ++ b).
Proof.
  unfold with_events. simpl. rewrite app_assoc. reflexivity.
Qed.

(** The block is the sequence of its guarded calls. *)
Lemma teardown_plan (w : world) (s : state) :
  teardown w s = await_all (release_plan s) w s.
Proof.
  destruct s as [p b c tr]. unfold teardown, release_plan, holds.
  destruct p, b, c; simpl; unfold bind, read, if_set, ret, await; simpl;
    case_outcomes; reflexivity.
Qed.

(** A sequence of awaited calls runs until the first one that raises. *)
Lemma await_all_cases (cs : list call) (w : world) (s : state) :
  (await_all cs w s = (Ok tt, with_events s (map returned cs))) \/
  (exists done c rest e,
      cs = done ++ c :: rest /\
      await_all cs w s =
        (Raise e, with_events s (map returned done ++ [Call c (Some e)]))).
Proof.
  revert s. induction cs as [|c cs IH]; intros s.
  - left. simpl. unfold ret. rewrite with_events_nil. reflexivity.
  - simpl. unfold bind, await.
    destruct (outcome w (trace s) c) as [e|] eqn:E.
    + right. exists [], c, cs, e. split; reflexivity.
    + destruct (IH (log (Call c None) s)) as [H | (done & c' & rest & e & Hcs & H)].
      * left. rewrite H. unfold log. fold (with_events s [Call c None]).
        rewrite with_events_app. reflexivity.
      * right. exists (c :: done), c', rest, e. split.
        -- rewrite Hcs. reflexivity.
        -- rewrite H. unfold log. fold (with_events s [Call c None]).
           rewrite with_events_app. reflexivity.
Qed.

Lemma release_plan_sound (s : state) (c : call) :
  In c (release_plan s) ->
  exists h, releases c = Some h /\ holds h s = true.
Proof.
  unfold release_plan. intros H.
  repeat (apply in_app_or in H; destruct H as [H|H]);
    match type of H with
    | In _ (if holds ?h s then _ else _) =>
        destruct (holds h s) eqn:Eh; simpl in H;
        [destruct H as [H|[]]; subst c; exists h; split; [reflexivity | exact Eh]
        | destruct H]
    end.
Qed.

Lemma released_skips (h : handle) (s : state) (evs : list event) :
  holds h s = false ->
  (forall ev, In ev evs -> exists c r, ev = Call c r /\ In c (release_plan s)) ->
  released h evs = 0%nat.
Proof.
  intros Hh Hin. apply count_none. apply Forall_forall. intros ev Hev.
  destruct (Hin ev Hev) as (c & r & -> & Hc).
  destruct (release_plan_sound s c Hc) as (h' & Hr & Hh').
  simpl. rewrite Hr. simpl.
  destruct h, h'; try reflexivity; congruence.
Qed.

(** ** Opening the session *)

Lemma open_session_spec (w : world) (r : result page) (s1 : state) :
  open_session w (State None None None []) = (r, s1) ->
  (forall h, acquired h (trace s1) = b2n (holds h s1) /\
             released h (trace s1) = 0%nat) /\
  forallb session_event (trace s1) = true /\
  (forall p, r = Ok p ->
     s1 = State (Some PlaywrightObj) (Some BrowserObj) (Some ContextObj)
            session_events).
Proof.
  unfold open_session, new_page, bind, await, assign_pw, assign_browser,
    assign_context, log. simpl.
  case_outcomes;
    intros H; inversion H; subst; clear H;
    (split; [intros h; destruct h; split; reflexivity |]);
    (split; [reflexivity |]); intros p Hp; try discriminate; reflexivity.
Qed.

(** ** The body once the session is open *)

Lemma appends_exec_step (P : event -> Prop) (p : page) (st : step) :
  (forall e, body_event e = true -> P e) -> appends P (exec_step p st).
Proof.
  intros HP.
  assert (Hawait : forall c, body_call c = true -> appends P (await c)).
  { intros c Hc. apply appends_await. intros r. apply HP. exact Hc. }
  assert (Hpages : appends P last_page).
  { apply appends_last_page. intros l. apply HP. reflexivity. }
  destruct st; simpl.
  - apply Hawait. reflexivity.
  - apply appends_bind; [exact Hpages|]. intros fr.
    apply appends_bind; [|intros _]; apply Hawait; reflexivity.
  - apply appends_bind; [exact Hpages|]. intros fr.
    apply appends_bind; [|intros _]; apply Hawait; reflexivity.
Qed.

Lemma appends_exec_steps (P : event -> Prop) (p : page) (sts : list step) :
  (forall e, body_event e = true -> P e) -> appends P (exec_steps p sts).
Proof.
  intros HP. induction sts as [|st sts IH]; simpl.
  - apply appends_ret.
  - apply appends_bind; [apply appends_exec_step; exact HP | intros _; exact IH].
Qed.

Lemma body_event_load_wait (c : call) (r : option exn) :
  is_load_wait c = true -> body_event (Call c r) = true.
Proof.
  destruct c; simpl; congruence.
Qed.

Lemma appends_after_session (P : event -> Prop) (g : list string)
  (sc : script) (p : page) :
  (forall e, body_event e = true -> P e) -> appends P (after_session g sc p).
Proof.
  intros HP. unfold after_session.
  apply appends_bind; [|intros _; apply appends_bind; [|intros _]].
  - apply appends_bind; [|intros _; apply appends_bind; [|intros _]].
    + apply appends_await. intros r. apply HP. reflexivity.
    + apply appends_stabilize.
      * intros c r Hc. apply HP. apply body_event_load_wait. exact Hc.
      * intros l. apply HP. reflexivity.
    + apply appends_exec_steps. exact HP.
  - apply appends_check_assertion.
    + intros l. apply HP. reflexivity.
    + intros q sel t r. apply HP. reflexivity.
  - apply appends_await. intros r. apply HP. reflexivity.
Qed.

(** The body is [open_session] followed by [after_session]. *)
Lemma scenario_body_split (g : list string) (sc : script) (w : world)
  (s0 : state) :
  scenario_body g sc w s0 =
    match open_session w s0 with
    | (Ok p, s1) => after_session g sc p w s1
    | (Raise e, s1) => (Raise e, s1)
    end.
Proof.
  unfold scenario_body, scenario_steps, after_session, bind.
  destruct (open_session w s0) as [[p|e] s1]; reflexivity.
Qed.

Lemma body_event_neutral (h : handle) (e : event) :
  body_event e = true -> acquire_event h e = false /\ release_event h e = false.
Proof.
  destruct e as [c r| |]; simpl; [|auto|auto].
  destruct c, r; simpl; intros H; try discriminate; auto.
Qed.

(** When the [finally] block starts, each variable is set exactly when its
    creating call has returned, and nothing has been released. *)
Lemma body_session_inv (g : list string) (sc : script) (w : world)
  (r : result unit) (s1 : state) :
  scenario_body g sc w (State None None None []) = (r, s1) ->
  forall h, acquired h (trace s1) = b2n (holds h s1) /\
            released h (trace s1) = 0%nat.
Proof.
  rewrite scenario_body_split.
  destruct (open_session w (State None None None [])) as [[p|e] s0] eqn:E.
  - intros H h.
    destruct (open_session_spec _ E) as (Hc & _ & _).
    destruct (@appends_after_session
                (fun e => acquire_event h e = false /\ release_event h e = false)
                g sc p (body_event_neutral h) _ _ _ _ H)
      as (Hp & Hb & Hx & evs & Ht & F).
    destruct (Hc h) as [Ha Hr].
    unfold acquired, released in *. rewrite Ht, !count_app, Ha, Hr.
    rewrite (count_none (acquire_event h) (evs:=evs)),
            (count_none (release_event h) (evs:=evs)).
    + split; [|reflexivity]. rewrite Nat.add_0_r.
      destruct h; unfold holds; rewrite ?Hp, ?Hb, ?Hx; reflexivity.
    + eapply Forall_impl; [|exact F]. intros a [_ Ha']. exact Ha'.
    + eapply Forall_impl; [|exact F]. intros a [Ha' _]. exact Ha'.
  - intros H h. inversion H; subst.
    destruct (open_session_spec _ E) as (Hc & _ & _). apply Hc.
Qed.

(** ** Releasing the session *)

(** C3, as amended.  The [finally] block closes the context, then the
    browser, then stops the runtime, in that order, skipping every handle
    whose variable is still [None].  It does not catch anything: either every
    call of the plan returns, or the first call that raises ends the block,
    its exception leaves the block and the calls after it are not made. *)
Theorem teardown_stops_at_first_error (w : world) (s : state) :
  ((forall h, holds h s = true) ->
   release_plan s = [ContextClose; BrowserClose; Stop]) /\
  (teardown w s = (Ok tt, with_events s (map returned (release_plan s))) \/
   (exists done c rest e,
       release_plan s = done ++ c :: rest /\
       teardown w s =
         (Raise e, with_events s (map returned done ++ [Call c (Some e)])))).
Proof.
  split.
  - intros H. unfold release_plan.
    rewrite (H BrowsingContext), (H Engine), (H Runtime). reflexivity.
  - rewrite teardown_plan. apply await_all_cases.
Qed.

(** C3, as stated, fails: with everything open and a context whose [close]
    raises, the error leaves the block, the browser is never closed and the
    runtime is never stopped. *)
Lemma failed_context_close_skips_the_rest :
  fst (teardown context_close_fails all_open) = Raise (Error "Target closed") /\
  trace (snd (teardown context_close_fails all_open)) =
    [Call ContextClose (Some (Error "Target closed"))] /\
  released Engine (trace (snd (teardown context_close_fails all_open))) = 0%nat /\
  released Runtime (trace (snd (teardown context_close_fails all_open))) = 0%nat.
Proof.
  repeat split.
Qed.

Lemma teardown_events_in_plan (w : world) (s : state) :
  exists evs,
    snd (teardown w s) = with_events s evs /\
    (forall ev, In ev evs -> exists c r, ev = Call c r /\ In c (release_plan s)) /\
    (forall e, fst (teardown w s) = Raise e ->
       exists c, In (Call c (Some e)) evs) /\
    (fst (teardown w s) = Ok tt \/ existsb release_failed evs = true).
Proof.
  rewrite teardown_plan.
  destruct (await_all_cases (release_plan s) w s)
    as [H | (done & c & rest & e & Hp & H)]; rewrite H; simpl.
  - exists (map returned (release_plan s)). split; [reflexivity|].
    split; [|split; [discriminate | left; reflexivity]].
    intros ev Hev. apply in_map_iff in Hev. destruct Hev as (c & <- & Hc).
    exists c, None. split; [reflexivity | exact Hc].
  - exists (map returned done ++ [Call c (Some e)]). split; [reflexivity|].
    split; [|split].
    + intros ev Hev. apply in_app_or in Hev. destruct Hev as [Hev|[<-|[]]].
      * apply in_map_iff in Hev. destruct Hev as (c' & <- & Hc).
        exists c', None. split; [reflexivity|]. rewrite Hp.
        apply in_or_app. left. exact Hc.
      * exists c, (Some e). split; [reflexivity|]. rewrite Hp.
        apply in_or_app. right. left. reflexivity.
    + intros e' He'. inversion He'; subst. exists c.
      apply in_or_app. right. left. reflexivity.
    + right. rewrite existsb_app. apply orb_true_iff. right. simpl.
      destruct (release_plan_sound s c) as (h & Hr & _).
      * rewrite Hp. apply in_or_app. right. left. reflexivity.
      * rewrite Hr. reflexivity.
Qed.

(** C2, as amended.  Whatever was or was not acquired, the [finally] block
    never calls the release of a handle whose variable is [None]; when no
    handle was acquired it makes no call and returns; and it raises only
    when a release call made on an acquired handle itself raised, never
    because a handle is missing. *)
Theorem teardown_skips_missing_handles (w : world) (s : state) :
  exists evs,
    snd (teardown w s) = with_events s evs /\
    (forall h, holds h s = false -> released h evs = 0%nat) /\
    ((forall h, holds h s = false) ->
       evs = [] /\ fst (teardown w s) = Ok tt) /\
    (forall e, fst (teardown w s) = Raise e ->
       exists c h, In (Call c (Some e)) evs /\
                   releases c = Some h /\ holds h s = true) /\
    (existsb release_failed evs = false -> fst (teardown w s) = Ok tt).
Proof.
  destruct (teardown_events_in_plan w s) as (evs & Hs & Hin & Hraise & Hok).
  exists evs. split; [exact Hs|]. split; [|split; [|split]].
  - intros h Hh. apply released_skips with (s := s); assumption.
  - intros Hnone.
    assert (Hevs : evs = []).
    { destruct evs as [|ev evs]; [reflexivity|]. exfalso.
      destruct (Hin ev (or_introl eq_refl)) as (c & r & _ & Hc).
      destruct (release_plan_sound s c Hc) as (h & _ & Hh).
      rewrite Hnone in Hh. discriminate. }
    split; [exact Hevs|]. subst evs. destruct Hok as [Hok|Hok];
      [exact Hok | discriminate].
  - intros e He. destruct (Hraise e He) as (c & Hc).
    destruct (Hin _ Hc) as (c' & r & Heq & Hplan). inversion Heq; subst c' r.
    destruct (release_plan_sound s c Hplan) as (h & Hr & Hh).
    exists c, h. repeat split; assumption.
  - intros Hnf. destruct Hok as [Hok|Hok]; [exact Hok | congruence].
Qed.

(** C2, as stated, fails: when the launch raised, only the runtime is held;
    the block then calls [stop], and if that raises the block raises.  The
    run of a whole file in such a world ends with the error of [stop]. *)
Lemma stop_error_leaves_teardown :
  partially_acquired only_runtime /\
  teardown launch_and_stop_fail only_runtime =
    (Raise (Exception "Connection closed"),
     with_events only_runtime
       [Call Stop (Some (Exception "Connection closed"))]) /\
  fst (run_test TC004 launch_and_stop_fail init) =
    Raise (Exception "Connection closed").
Proof.
  split; [right; left; reflexivity|]. split; reflexivity.
Qed.

Lemma released_plan (h : handle) (s : state) :
  released h (map returned (release_plan s)) = b2n (holds h s).
Proof.
  destruct s as [p b c tr]. destruct p, b, c, h; reflexivity.
Qed.

Lemma acquired_in_plan (h : handle) (s : state) (evs : list event) :
  (forall ev, In ev evs -> exists c r, ev = Call c r /\ In c (release_plan s)) ->
  acquired h evs = 0%nat.
Proof.
  intros Hin. apply count_none. apply Forall_forall. intros ev Hev.
  destruct (Hin ev Hev) as (c & r & -> & Hc).
  destruct (release_plan_sound s c Hc) as (h' & Hr & _).
  destruct c, r; simpl in *; try discriminate; reflexivity.
Qed.

Lemma released_prefix (h : handle) (done rest : list call) (c : call)
  (r : option exn) :
  (released h (map returned done ++ [Call c r])
   <= released h (map returned (done ++ c :: rest)))%nat.
Proof.
  unfold released. rewrite map_app, !count_app. simpl map.
  change (returned c :: map returned rest)
    with ([returned c] ++ map returned rest).
  rewrite count_app.
  assert (count (release_event h) [Call c r]
          = count (release_event h) [returned c]) as ->
    by (unfold count; simpl; destruct (is_handle h (releases c)); reflexivity).
  lia.
Qed.

(** C1, as amended.  In every run of [run_test], however the body ends, the
    [finally] block runs on the state the body left; no handle is ever
    released twice or released without having been acquired; and when no
    release call of the block raises, every handle that was acquired is
    released exactly once.  (When a release call raises, the handles after
    it in the block are not released.) *)
Theorem session_released_unless_release_fails (sc : script) (w : world) :
  let tr := trace (snd (run_test sc w init)) in
  (exists r1 s1,
      scenario_body module_globals sc w init = (r1, s1) /\
      snd (run_test sc w init) = snd (teardown w s1)) /\
  (forall h, (released h tr <= acquired h tr)%nat /\
             (acquired h tr <= 1)%nat) /\
  (existsb release_failed tr = false -> session_released tr).
Proof.
  intros tr. subst tr.
  unfold run_test, run_test_in, bind, enter, try_finally. simpl.
  change (State None None None []) with init.
  destruct (scenario_body module_globals sc w init) as [r1 s1] eqn:Eb.
  pose proof (body_session_inv _ _ _ Eb) as Inv.
  destruct (teardown_events_in_plan w s1) as (evs & Hs & Hin & _ & Hok).
  assert (Hsnd : snd (match teardown w s1 with
                      | (Ok _, s2) => (r1, s2)
                      | (Raise e, s2) => (Raise e, s2)
                      end) = snd (teardown w s1)).
  { destruct (teardown w s1) as [[[]|e] s2]; reflexivity. }
  rewrite Hsnd, Hs. simpl.
  assert (Hacq : forall h, acquired h (trace s1 ++ evs) = b2n (holds h s1)).
  { intros h. unfold acquired. rewrite count_app.
    fold (acquired h (trace s1)). fold (acquired h evs).
    rewrite (acquired_in_plan h s1 evs Hin). destruct (Inv h) as [-> _]. lia. }
  assert (Hrel : forall h, released h (trace s1 ++ evs) = released h evs).
  { intros h. unfold released. rewrite count_app.
    fold (released h (trace s1)). destruct (Inv h) as [_ ->]. reflexivity. }
  assert (Hle : forall h, (released h evs <= b2n (holds h s1))%nat).
  { intros h. rewrite teardown_plan in Hs.
    destruct (await_all_cases (release_plan s1) w s1)
      as [H | (done & c & rest & e & Hp & H)]; rewrite H in Hs; simpl in Hs.
    - injection Hs as Hs. apply app_inv_head in Hs. subst evs.
      rewrite released_plan. lia.
    - injection Hs as Hs. apply app_inv_head in Hs. subst evs.
      rewrite <- released_plan, Hp. apply released_prefix. }
  split; [|split].
  - exists r1, s1. split; [reflexivity | symmetry; exact Hs].
  - intros h. rewrite Hacq, Hrel. split; [apply Hle|].
    destruct (holds h s1); simpl; lia.
  - intros Hnf h. rewrite Hacq, Hrel. split.
    + rewrite existsb_app in Hnf. apply orb_false_iff in Hnf.
      destruct Hnf as [_ Hnf].
      destruct Hok as [Hok|Hok]; [|congruence].
      rewrite teardown_plan in Hs, Hok.
      destruct (await_all_cases (release_plan s1) w s1)
        as [H | (done & c & rest & e & Hp & H)]; rewrite H in Hs, Hok;
        simpl in Hs, Hok; [|discriminate].
      injection Hs as Hs. apply app_inv_head in Hs. subst evs.
      apply released_plan.
    + destruct (holds h s1); simpl; lia.
Qed.

(** A run in which nothing raises releases its three handles. *)
Lemma calm_run_releases_session :
  session_released (trace (snd (run_test TC003 calm init))).
Proof.
  apply (proj2 (proj2 (session_released_unless_release_fails TC003 calm))).
  vm_compute. reflexivity.
Defined.

(** C1, as stated, fails: in a run whose body completes and whose context
    raises on [close], the browser and the runtime were acquired and are
    never released. *)
Lemma failed_context_close_leaks_browser :
  acquired Engine (trace (snd (run_test TC003 context_close_fails init))) = 1%nat /\
  released Engine (trace (snd (run_test TC003 context_close_fails init))) = 0%nat /\
  ~ session_released (trace (snd (run_test TC003 context_close_fails init))).
Proof.
  split; [vm_compute; reflexivity|]. split; [vm_compute; reflexivity|].
  intros H. destruct (H Engine) as [H1 _]. vm_compute in H1. discriminate.
Qed.

(** ** Best-effort waits *)

Section BestEffortWaits.

Variable w : world.

(** Whatever a wait for the load state raises is an error of the automation
    library ([Error], or its subclass [TimeoutError]). *)
Hypothesis waits_raise_library_errors :
  forall hist c e,
    is_load_wait c = true -> outcome w hist c = Some e ->
    isinstance_Error e = true.

Lemma best_effort_wait (c : call) (s : state) :
  is_load_wait c = true ->
  best_effort (await c) w s =
    (Ok tt, with_events s [Call c (outcome w (trace s) c)]).
Proof.
  intros Hc. unfold best_effort, try_except, await.
  destruct (outcome w (trace s) c) as [e|] eqn:E; simpl.
  - rewrite (waits_raise_library_errors _ _ Hc E). reflexivity.
  - reflexivity.
Qed.

Lemma wait_frames_all (fs : list frame) (s : state) :
  exists fevs,
    wait_frames fs w s = (Ok tt, with_events s fevs) /\
    calls_of fevs =
      map (fun f => FrameWaitForLoadState f "domcontentloaded" 3000) fs.
Proof.
  revert s. induction fs as [|f fs IH]; intros s; simpl.
  - exists []. rewrite with_events_nil. split; reflexivity.
  - unfold bind. rewrite best_effort_wait by reflexivity.
    destruct (IH (with_events s
      [Call (FrameWaitForLoadState f "domcontentloaded" 3000)
         (outcome w (trace s)
            (FrameWaitForLoadState f "domcontentloaded" 3000))]))
      as (fevs & H & Hc).
    eexists (_ :: fevs). rewrite H, with_events_app. split; [reflexivity|].
    simpl. rewrite Hc. reflexivity.
Qed.

Lemma stabilize_returns (p : page) (s : state) :
  exists r0 fs fevs,
    stabilize p w s =
      (Ok tt,
       with_events s
         (Call (PageWaitForLoadState p "domcontentloaded" 3000) r0
            :: Frames p fs :: fevs)) /\
    fs = page_frames w
           (trace s ++ [Call (PageWaitForLoadState p "domcontentloaded" 3000) r0])
           p /\
    calls_of fevs =
      map (fun f => FrameWaitForLoadState f "domcontentloaded" 3000) fs.
Proof.
  unfold stabilize, bind. rewrite best_effort_wait by reflexivity.
  unfold read_frames. simpl.
  set (r0 := outcome w (trace s) (PageWaitForLoadState p "domcontentloaded" 3000)).
  set (ev0 := Call (PageWaitForLoadState p "domcontentloaded" 3000) r0).
  set (fs := page_frames w (trace s ++ [ev0]) p).
  destruct (wait_frames_all fs (log (Frames p fs) (with_events s [ev0])))
    as (fevs & H & Hc).
  exists r0, fs, fevs. rewrite H. split; [|split; [reflexivity | exact Hc]].
  unfold log, with_events. simpl. rewrite <- !app_assoc. reflexivity.
Qed.

End BestEffortWaits.




(** ** The final assertion *)

Lemma expect_unbound :
  bound_in module_globals "expect" || bound_in builtins "expect" = false.
Proof.
  vm_compute. reflexivity.
Qed.

(** The [try] block of the assertion raises [NameError] in every state of
    every world, without any call being made and without entering the
    handler. *)
Lemma assertion_try_block (w : world) (s : state) (fr : page)
  (a : assertion_block) :
  try_except
    (load_global module_globals "expect" ;;
     await (ToBeVisible fr (expected a) (visible_timeout a)))
    isinstance_AssertionError
    (fun _ => raise (AssertionError (reason a))) w s
  = (Raise (NameError "expect"), s).
Proof.
  unfold try_except, bind, load_global. rewrite expect_unbound. reflexivity.
Qed.

Lemma last_opt_nonempty (A : Type) (l : list A) :
  l <> [] -> exists a, last_opt l = Some a.
Proof.
  induction l as [|a l IH]; [congruence|]. intros _.
  destruct l as [|b l].
  - exists a. reflexivity.
  - destruct IH as [x Hx]; [discriminate|]. exists x. exact Hx.
Qed.

Lemma appends_interactions (P : event -> Prop) (sc : script) (p : page) :
  (forall e, body_event e = true -> P e) ->
  appends P (await (PageGoto p "http://localhost:3000" "commit" 10000) ;;
             stabilize p ;; exec_steps p (steps sc)).
Proof.
  intros HP.
  apply appends_bind; [|intros _; apply appends_bind; [|intros _]].
  - apply appends_await. intros r. apply HP. reflexivity.
  - apply appends_stabilize.
    + intros c r Hc. apply HP. apply body_event_load_wait. exact Hc.
    + intros l. apply HP. reflexivity.
  - apply appends_exec_steps. exact HP.
Qed.

(** When the interaction steps have all returned, the three variables are
    set. *)
Lemma scenario_steps_ok (sc : script) (w : world) (s1 : state) :
  scenario_steps sc w init = (Ok tt, s1) ->
  pw s1 = Some PlaywrightObj /\ browser s1 = Some BrowserObj /\
  context s1 = Some ContextObj.
Proof.
  unfold scenario_steps, bind at 1. unfold init.
  destruct (open_session w (State None None None [])) as [[p|e] s0] eqn:E;
    [|discriminate].
  destruct (open_session_spec _ E) as (_ & _ & Hs0).
  specialize (Hs0 p eq_refl). subst s0. intros H.
  destruct (@appends_interactions (fun _ => True) sc p (fun _ _ => I) _ _ _ _ H)
    as (Hp & Hb & Hc & _).
  simpl in *. auto.
Qed.

(** C10.  No file binds the name [expect]: it is neither imported nor
    defined, and it is not a builtin.  So in every file with a final
    assertion, once the steps before it have returned and the page list has
    been read, the [try] block raises [NameError] whatever the page shows: no
    visibility check is made, the [except AssertionError] handler is not
    entered (the body ends with the [NameError], not with the reason of the
    file), and the [finally] block still runs on the state so reached. *)
Theorem unbound_expect_raises_name_error (sc : script) (a : assertion_block)
  (w : world) (s1 : state) :
  assertion sc = Some a ->
  scenario_steps sc w init = (Ok tt, s1) ->
  context_pages w (trace s1) <> [] ->
  let s2 := with_events s1 [Pages (context_pages w (trace s1))] in
  bound_in module_globals "expect" || bound_in builtins "expect" = false /\
  scenario_body module_globals sc w init = (Raise (NameError "expect"), s2) /\
  run_test sc w init =
    (match fst (teardown w s2) with
     | Ok _ => Raise (NameError "expect")
     | Raise e => Raise e
     end, snd (teardown w s2)).
Proof.
  intros Ha Hsteps Hpages s2.
  destruct (scenario_steps_ok _ _ Hsteps) as (_ & _ & Hctx).
  destruct (last_opt_nonempty Hpages) as [fr Hfr].
  assert (Hbody : scenario_body module_globals sc w init
                  = (Raise (NameError "expect"), s2)).
  { unfold scenario_body. rewrite (@bind_ok _ _ _ _ _ _ _ _ Hsteps), Ha.
    erewrite bind_raise; [reflexivity|].
    unfold check_assertion. erewrite bind_ok.
    - apply assertion_try_block.
    - unfold last_page. rewrite Hctx, Hfr. reflexivity. }
  split; [exact expect_unbound|]. split; [exact Hbody|].
  unfold run_test, run_test_in, bind, enter, try_finally. simpl.
  change (State None None None []) with init. rewrite Hbody.
  destruct (teardown w s2) as [[[]|e] s3]; reflexivity.
Qed.

(** In a world where nothing raises, the first file ends with the
    [NameError] after its [finally] block has closed everything. *)
Lemma calm_first_file_raises_name_error :
  fst (run_test TC001 calm init) = Raise (NameError "expect") /\
  map (fun h => released h (trace (snd (run_test TC001 calm init))))
    [BrowsingContext; Engine; Runtime] = [1%nat; 1%nat; 1%nat].
Proof.
  pose (s1 := snd (scenario_steps TC001 calm init)).
  assert (Hsteps : scenario_steps TC001 calm init = (Ok tt, s1))
    by (vm_compute; reflexivity).
  assert (Hpages : context_pages calm (trace s1) <> []) by discriminate.
  destruct (@unbound_expect_raises_name_error TC001 _ calm s1 eq_refl
              Hsteps Hpages) as (_ & _ & Hrun).
  rewrite Hrun. split; vm_compute; reflexivity.
Defined.

(** The tenth file has stray Markdown fences around its assertion block: it
    does not parse, so running it raises before any call is made. *)
Lemma fenced_file_does_not_run (w : world) :
  main TC010 w init = (Raise (SyntaxError "invalid syntax"), init).
Proof.
  reflexivity.
Qed.

(** C5 at its failing input.  The expected text never shows.  The runs of the
    two files named by the claim do not end with the reason of the file: the
    name [expect] is unbound, so they end with [NameError] before any
    visibility check is made.  The [finally] block does run: each of the
    three handles is released once. *)
Theorem absent_text_ends_in_name_error :
  fst (run_test TC001 text_absent init) = Raise (NameError "expect") /\
  fst (run_test TC009 text_absent init) = Raise (NameError "expect") /\
  visibility_checked (trace (snd (run_test TC001 text_absent init))) = false /\
  visibility_checked (trace (snd (run_test TC009 text_absent init))) = false /\
  map (fun h => released h (trace (snd (run_test TC001 text_absent init))))
    [BrowsingContext; Engine; Runtime] = [1%nat; 1%nat; 1%nat].
Proof.
  repeat split; vm_compute; reflexivity.
Qed.

(** What the handler was written for: were [expect] bound at module level,
    the same runs would end with the reason of the file. *)
Lemma bound_expect_would_report_reason :
  (exists a, assertion TC001 = Some a /\
     fst (run_test_in ("expect" :: module_globals) TC001 text_absent init)
     = Raise (AssertionError (reason a))) /\
  (exists a, assertion TC009 = Some a /\
     fst (run_test_in ("expect" :: module_globals) TC009 text_absent init)
     = Raise (AssertionError (reason a))).
Proof.
  split; eexists; (split; [reflexivity|]); vm_compute; reflexivity.
Qed.

(** ** What the files declare *)

(** C6, as stated, fails: the file that fills in the rejection reason has no
    final assertion at all, and does not look for "Application Denied". *)
Lemma rejection_file_has_no_assertion :
  In TC006 corpus /\
  submits_rejection_reason TC006 = true /\
  assertion TC006 = None /\
  expects_text "Application Denied" TC006 = false.
Proof.
  repeat split. vm_compute. tauto.
Qed.

(** C6, as amended.  A file is an ordered list of steps, followed in six of
    the fifteen files by one final assertion block.  The only file that fills
    in the rejection reason is the sixth: it then clicks the button of the
    dialog and has no final assertion.  The only file whose assertion looks
    for "Application Denied" is the ninth, which fills in nothing but the
    login; the reason its handler carries cites the missing denial
    confirmation or notifications. *)
Theorem assertions_of_the_corpus :
  List.length corpus = 15%nat /\
  filter has_assertion corpus = [TC001; TC009; TC010; TC011; TC013; TC016] /\
  filter submits_rejection_reason corpus = [TC006] /\
  (exists pre post value,
     steps TC006 =
       pre ++ Fill "xpath=html/body/div[6]/div[3]/textarea" 0 3000 value
           :: Click "xpath=html/body/div[6]/button" 0 3000 5000 :: post /\
     String.prefix rejection_reason value = true) /\
  assertion TC006 = None /\
  filter (expects_text "Application Denied") corpus = [TC009] /\
  fill_values (steps TC009) = ["test@demo.com"; "pw1234-#"] /\
  (exists a,
     assertion TC009 = Some a /\
     expected a = "text=Application Denied" /\
     visible_timeout a = 3000 /\
     contains "the denial confirmation or notifications did not appear"
       (reason a) = true).
Proof.
  split; [reflexivity|]. split; [vm_compute; reflexivity|].
  split; [vm_compute; reflexivity|]. split.
  - exists (firstn 14 (steps TC006)), (skipn 16 (steps TC006)).
    eexists. split; [reflexivity | vm_compute; reflexivity].
  - split; [reflexivity|]. split; [vm_compute; reflexivity|].
    split; [reflexivity|].
    eexists. split; [reflexivity|]. repeat split; vm_compute; reflexivity.
Qed.

(** C8 at its failing input.  The first file does declare every literal of
    the example: the ten values it fills in, in order, and an assertion block
    that looks for "AI-generated Quotation" for 3000 ms with a handler
    carrying the reason about the quotation or overlimit alert.  But its run
    never makes that check and never reports that reason: whether the text is
    absent or present, the run ends with [NameError] for [expect]. *)
Theorem first_file_literals_and_outcome :
  fill_values (steps TC001) =
    ["test@demo.com"; "pw1234-#"; "Acme Corp"; "2026/000001/07";
     "Financial Services"; "250"; "R500,000"; "John Doe";
     "john.doe@acmecorp.co.za"; "+27 82 555 1234"] /\
  (exists a,
     assertion TC001 = Some a /\
     expected a = "text=AI-generated Quotation" /\
     visible_timeout a = 3000 /\
     contains "indicating the quotation or overlimit alert was not produced"
       (reason a) = true) /\
  run_test TC001 text_absent init = run_test TC001 calm init /\
  fst (run_test TC001 text_absent init) = Raise (NameError "expect") /\
  visibility_checked (trace (snd (run_test TC001 calm init))) = false.
Proof.
  split; [reflexivity|]. split.
  - eexists. split; [reflexivity|]. repeat split; vm_compute; reflexivity.
  - repeat split; vm_compute; reflexivity.
Qed.

(** ** Order of the actions *)

Lemma performed_app (a b : list event) :
  performed (a ++ b) = performed a ++ performed b.
Proof.
  unfold performed. apply flat_map_app.
Qed.

Lemma in_order_nil (decl : list action) : in_order decl [].
Proof.
  exists [], decl. split; [reflexivity | left; reflexivity].
Qed.

Lemma in_order_full (decl : list action) : in_order decl (map completed decl).
Proof.
  exists decl, []. split; [symmetry; apply app_nil_r | left; reflexivity].
Qed.

Lemma in_order_app_l (d1 d2 : list action) (perf : list (action * bool)) :
  in_order d1 perf -> in_order (d1 ++ d2) perf.
Proof.
  intros (done & rest & Hd & H). exists done, (rest ++ d2). split.
  - rewrite Hd, app_assoc. reflexivity.
  - destruct H as [H | (a & rest' & Hr & H)]; [left; exact H|].
    right. exists a, (rest' ++ d2). split; [rewrite Hr; reflexivity | exact H].
Qed.

Lemma in_order_app_r (d1 d2 : list action) (perf : list (action * bool)) :
  in_order d2 perf -> in_order (d1 ++ d2) (map completed d1 ++ perf).
Proof.
  intros (done & rest & Hd & H). exists (d1 ++ done), rest. split.
  - rewrite Hd, app_assoc. reflexivity.
  - rewrite map_app. destruct H as [H | (a & rest' & Hr & H)].
    + left. rewrite H. reflexivity.
    + right. exists a, rest'. split; [exact Hr|].
      rewrite H, app_assoc. reflexivity.
Qed.

Lemma in_order_nothing (perf : list (action * bool)) :
  in_order [] perf -> perf = [].
Proof.
  intros (done & rest & Hd & H). symmetry in Hd.
  apply app_eq_nil in Hd. destruct Hd as [-> ->].
  destruct H as [H | (a & rest' & Hr & _)]; [exact H | discriminate].
Qed.

Lemma performs_bind (A B : Type) (m : M A) (k : A -> M B)
  (d1 d2 : list action) :
  performs m d1 -> (forall a, performs (k a) d2) ->
  performs (bind m k) (d1 ++ d2).
Proof.
  intros Hm Hk w s r s' H. unfold bind in H.
  destruct (m w s) as [[a|e] s1] eqn:E.
  - destruct (Hm _ _ _ _ E) as (ev1 & Ht1 & _ & F1).
    destruct (Hk a _ _ _ _ H) as (ev2 & Ht2 & O2 & F2).
    exists (ev1 ++ ev2). rewrite Ht2, Ht1, app_assoc, performed_app.
    rewrite (F1 a eq_refl). split; [reflexivity|]. split.
    + apply in_order_app_r. exact O2.
    + intros b Hb. rewrite (F2 b Hb), map_app. reflexivity.
  - inversion H; subst. destruct (Hm _ _ _ _ E) as (ev1 & Ht1 & O1 & _).
    exists ev1. split; [exact Ht1|]. split; [|discriminate].
    apply in_order_app_l. exact O1.
Qed.

Lemma performs_same (A : Type) (m : M A) (d d' : list action) :
  d = d' -> performs m d -> performs m d'.
Proof.
  intros ->. trivial.
Qed.

(** A computation that does not touch the trace. *)
Lemma performs_silent (A : Type) (m : M A) :
  (forall w s r s', m w s = (r, s') -> trace s' = trace s) ->
  performs m [].
Proof.
  intros Hm w s r s' H. exists []. rewrite app_nil_r.
  split; [exact (Hm _ _ _ _ H)|]. split; [apply in_order_nil|].
  reflexivity.
Qed.

(** A computation that appends one event which is not an action. *)
Lemma performs_one_event (A : Type) (m : M A) :
  (forall w s r s', m w s = (r, s') ->
     exists e, trace s' = trace s ++ [e] /\ performed [e] = []) ->
  performs m [].
Proof.
  intros Hm w s r s' H. destruct (Hm _ _ _ _ H) as (e & Ht & He).
  exists [e]. rewrite He. split; [exact Ht|]. split; [apply in_order_nil|].
  reflexivity.
Qed.

Lemma performs_await_other (c : call) :
  action_of_call c = None -> performs (await c) [].
Proof.
  intros Hc. apply performs_one_event. intros w s r s' H. unfold await in H.
  exists (Call c (outcome w (trace s) c)).
  split; [|unfold performed; simpl; rewrite Hc; reflexivity].
  destruct (outcome w (trace s) c); inversion H; reflexivity.
Qed.

Lemma performs_await_action (c : call) (a : action) :
  action_of_call c = Some a -> performs (await c) [a].
Proof.
  intros Hc w s r s' H. unfold await in H.
  exists [Call c (outcome w (trace s) c)]. unfold performed. simpl.
  rewrite Hc. destruct (outcome w (trace s) c) as [e|];
    inversion H; subst; simpl.
  - split; [reflexivity|]. split; [|discriminate].
    exists [], [a]. split; [reflexivity|]. right. exists a, [].
    split; reflexivity.
  - split; [reflexivity|]. split; [|reflexivity].
    apply (in_order_full [a]).
Qed.

Lemma performs_try_except (A : Type) (m : M A) (catches : exn -> bool)
  (handler : exn -> M A) :
  performs m [] -> (forall e, performs (handler e) []) ->
  performs (try_except m catches handler) [].
Proof.
  intros Hm Hh w s r s' H. unfold try_except in H.
  destruct (m w s) as [[a|e] s1] eqn:E.
  - inversion H; subst. exact (Hm _ _ _ _ E).
  - destruct (catches e).
    + destruct (Hm _ _ _ _ E) as (ev1 & Ht1 & O1 & _).
      destruct (Hh e _ _ _ _ H) as (ev2 & Ht2 & O2 & _).
      exists (ev1 ++ ev2). rewrite Ht2, Ht1, app_assoc, performed_app.
      rewrite (in_order_nothing O1), (in_order_nothing O2).
      split; [reflexivity|]. split; [apply in_order_nil | reflexivity].
    + inversion H; subst. exact (Hm _ _ _ _ E).
Qed.

Lemma performs_try_finally (A : Type) (body : M A) (cleanup : M unit)
  (d : list action) :
  performs body d -> performs cleanup [] ->
  performs (try_finally body cleanup) d.
Proof.
  intros Hb Hc w s r s' H. unfold try_finally in H.
  destruct (body w s) as [r1 s1] eqn:E.
  destruct (cleanup w s1) as [r2 s2] eqn:E2.
  destruct (Hb _ _ _ _ E) as (ev1 & Ht1 & O1 & F1).
  destruct (Hc _ _ _ _ E2) as (ev2 & Ht2 & O2 & _).
  exists (ev1 ++ ev2). rewrite performed_app, (in_order_nothing O2), app_nil_r.
  destruct r2 as [[]|e]; inversion H; subst.
  - split; [rewrite Ht2, Ht1, app_assoc; reflexivity|].
    split; [exact O1 | exact F1].
  - split; [rewrite Ht2, Ht1, app_assoc; reflexivity|].
    split; [exact O1 | discriminate].
Qed.

Lemma performs_then (A B : Type) (m : M A) (k : A -> M B) (d : list action) :
  performs m [] -> (forall a, performs (k a) d) -> performs (bind m k) d.
Proof.
  intros Hm Hk. exact (@performs_bind _ _ m k [] d Hm Hk).
Qed.

Lemma performs_ret (A : Type) (a : A) : performs (ret a) [].
Proof.
  apply performs_silent. intros w s r s' H. inversion H. reflexivity.
Qed.

Lemma performs_raise (A : Type) (e : exn) : performs (@raise A e) [].
Proof.
  apply performs_silent. intros w s r s' H. inversion H. reflexivity.
Qed.

Lemma performs_open_session : performs open_session [].
Proof.
  unfold open_session.
  repeat (apply performs_then; [|intros _]);
    try (apply performs_await_other; reflexivity);
    try (apply performs_silent; intros w s r s' H; inversion H; reflexivity).
  apply performs_one_event. intros w s r s' H. unfold new_page, await in H.
  exists (Call NewPage (outcome w (trace s) NewPage)). split; [|reflexivity].
  destruct (outcome w (trace s) NewPage); inversion H; reflexivity.
Qed.

Lemma performs_last_page : performs last_page [].
Proof.
  intros w s r s' H. unfold last_page in H. destruct (context s).
  - exists [Pages (context_pages w (trace s))].
    split; [|split; [apply in_order_nil | reflexivity]].
    destruct (last_opt (context_pages w (trace s))); inversion H; reflexivity.
  - inversion H; subst. exists []. rewrite app_nil_r.
    split; [reflexivity|]. split; [apply in_order_nil | reflexivity].
Qed.

Lemma performs_best_effort_wait (c : call) :
  is_load_wait c = true -> performs (best_effort (await c)) [].
Proof.
  intros Hc. apply performs_try_except.
  - apply performs_await_other. destruct c; try discriminate; reflexivity.
  - intros e. apply performs_ret.
Qed.

Lemma performs_stabilize (p : page) : performs (stabilize p) [].
Proof.
  unfold stabilize. apply performs_then.
  - apply performs_best_effort_wait. reflexivity.
  - intros _. apply performs_then.
    + apply performs_one_event. intros w s r s' H. inversion H; subst.
      eexists. split; reflexivity.
    + intros fs. induction fs as [|f fs IH]; simpl.
      * apply performs_ret.
      * apply performs_then; [|intros _; exact IH].
        apply performs_best_effort_wait. reflexivity.
Qed.

Lemma performs_exec_step (p : page) (st : step) :
  performs (exec_step p st) [declared st].
Proof.
  destruct st; simpl.
  - apply performs_await_action. reflexivity.
  - apply performs_then; [apply performs_last_page|]. intros fr.
    apply performs_then; [apply performs_await_other; reflexivity|].
    intros _. apply performs_await_action. reflexivity.
  - apply performs_then; [apply performs_last_page|]. intros fr.
    apply performs_then; [apply performs_await_other; reflexivity|].
    intros _. apply performs_await_action. reflexivity.
Qed.

Lemma performs_exec_steps (p : page) (sts : list step) :
  performs (exec_steps p sts) (map declared sts).
Proof.
  induction sts as [|st sts IH]; simpl.
  - apply performs_ret.
  - exact (@performs_bind _ _ _ _ [declared st] _
             (performs_exec_step p st) (fun _ => IH)).
Qed.

Lemma performs_scenario_steps (sc : script) :
  performs (scenario_steps sc) (declared_actions sc).
Proof.
  unfold scenario_steps. apply performs_then; [apply performs_open_session|].
  intros p. unfold declared_actions.
  refine (@performs_bind _ _ _ _ [AGoto "http://localhost:3000"] _ _ _).
  - apply performs_await_action. reflexivity.
  - intros _. apply performs_then; [apply performs_stabilize|].
    intros _. apply performs_exec_steps.
Qed.

Lemma performs_check_assertion (g : list string) (a : option assertion_block) :
  performs (check_assertion g a) [].
Proof.
  destruct a as [a|]; simpl; [|apply performs_ret].
  apply performs_then; [apply performs_last_page|]. intros fr.
  apply performs_try_except; [|intros e; apply performs_raise].
  apply performs_then.
  - unfold load_global.
    destruct (bound_in g "expect" || bound_in builtins "expect");
      [apply performs_ret | apply performs_raise].
  - intros _. apply performs_await_other. reflexivity.
Qed.

Lemma performs_teardown : performs teardown [].
Proof.
  unfold teardown.
  repeat (apply performs_then;
          [try (apply performs_silent; intros w s r s' H; inversion H;
                reflexivity) | intros ?]);
    try (match goal with
         | |- performs (if_set ?v _) _ => destruct v; simpl
         end);
    try apply performs_ret; apply performs_await_other; reflexivity.
Qed.

Lemma performs_run_test (g : list string) (sc : script) :
  performs (run_test_in g sc) (declared_actions sc).
Proof.
  unfold run_test_in. apply performs_then.
  - apply performs_silent. intros w s r s' H. inversion H. reflexivity.
  - intros _. apply performs_try_finally; [|apply performs_teardown].
    unfold scenario_body.
    apply performs_same with (d := declared_actions sc ++ []);
      [apply app_nil_r|].
    apply performs_bind; [apply performs_scenario_steps|]. intros _.
    apply performs_then; [apply performs_check_assertion|]. intros _.
    apply performs_await_other. reflexivity.
Qed.

(** C9.  In every run of every file the actions (navigations, clicks, fills)
    appear in the trace in the order the file declares them: the trace holds
    a first part of the declared list, every one of them returned, followed
    at most by the next declared action, which raised; nothing is attempted
    after an action that raised, and a run that returns has made them all.
    Each awaited call is one event of one trace: the coroutine awaits every
    call before it goes on and spawns nothing to run beside it. *)
Theorem actions_run_in_declared_order (sc : script) (w : world) :
  let tr := trace (snd (run_test sc w init)) in
  (exists done rest,
      declared_actions sc = done ++ rest /\
      (performed tr = map completed done \/
       exists a rest', rest = a :: rest' /\
                       performed tr = map completed done ++ [(a, false)])) /\
  (fst (run_test sc w init) = Ok tt ->
   performed tr = map completed (declared_actions sc)).
Proof.
  intros tr. subst tr.
  destruct (run_test sc w init) as [r s'] eqn:E.
  destruct (@performs_run_test module_globals sc _ _ _ _ E)
    as (evs & Ht & O & F).
  simpl in Ht. simpl. rewrite Ht. split; [exact O|].
  intros Hr. apply (F tt). exact Hr.
Qed.

(** ** Targets of the interactions *)

Lemma app_snoc_inv (A : Type) (tr pre post : list A) (e x : A) :
  tr ++ [e] = pre ++ x :: post ->
  (post = [] /\ tr = pre /\ e = x) \/
  (exists post', post = post' ++ [e] /\ tr = pre ++ x :: post').
Proof.
  destruct post as [|y post _] using rev_ind; intros H.
  - apply app_inj_tail in H. destruct H as [H1 H2]. left. auto.
  - replace (pre ++ x :: post ++ [y]) with ((pre ++ x :: post) ++ [y]) in H
      by (rewrite <- app_assoc; reflexivity).
    apply app_inj_tail in H. destruct H as [H1 H2]. subst.
    right. exists post. auto.
Qed.

Lemma targeted_snoc (w : world) (tr : list event) (e : event) :
  targeted w tr ->
  (forall c r loc t,
     e = Call c r -> interaction c = Some (loc, t) ->
     exists pre' l p ms,
       tr = pre' ++ [Pages l; Call (WaitForTimeout p ms) None] /\
       l = context_pages w pre' /\
       last_opt l = Some (loc_page loc) /\
       effective_timeout tr t = 5000) ->
  targeted w (tr ++ [e]).
Proof.
  intros HT He pre post c r loc t Heq Hint.
  apply app_snoc_inv in Heq.
  destruct Heq as [(_ & Hpre & Hx) | (post' & _ & Htr)].
  - subst pre. exact (He c r loc t Hx Hint).
  - exact (HT pre post' c r loc t Htr Hint).
Qed.

Lemma quiet_no_interaction (e : event) (c : call) (r : option exn)
  (loc : locator) (t : option Z) :
  quiet_event e = true -> e = Call c r -> interaction c = Some (loc, t) ->
  False.
Proof.
  intros Hq -> Hi. destruct c; simpl in *; discriminate.
Qed.

Lemma targeted_quiet (w : world) (tr evs : list event) :
  targeted w tr -> Forall (fun e => quiet_event e = true) evs ->
  targeted w (tr ++ evs).
Proof.
  intros HT F. revert tr HT. induction F as [|e evs He _ IH]; intros tr HT.
  - rewrite app_nil_r. exact HT.
  - replace (tr ++ e :: evs) with ((tr ++ [e]) ++ evs)
      by (rewrite <- app_assoc; reflexivity).
    apply IH. apply targeted_snoc; [exact HT|].
    intros c r loc t Hc Hi. exfalso.
    exact (quiet_no_interaction He Hc Hi).
Qed.

Lemma default_timeout_snoc (tr : list event) (e : event) :
  (forall ms, e <> Call (SetDefaultTimeout ms) None) ->
  default_timeout (tr ++ [e]) = default_timeout tr.
Proof.
  intros He. unfold default_timeout. rewrite fold_left_app. simpl.
  destruct e as [c r| |]; try reflexivity.
  destruct c; try reflexivity. destruct r; [reflexivity|].
  exfalso. exact (He ms eq_refl).
Qed.

Lemma default_timeout_quiet (tr evs : list event) :
  Forall (fun e => quiet_event e = true) evs ->
  default_timeout (tr ++ evs) = default_timeout tr.
Proof.
  intros F. revert tr. induction F as [|e evs He _ IH]; intros tr.
  - rewrite app_nil_r. reflexivity.
  - replace (tr ++ e :: evs) with ((tr ++ [e]) ++ evs)
      by (rewrite <- app_assoc; reflexivity).
    rewrite IH. apply default_timeout_snoc. intros ms ->. discriminate.
Qed.

Lemma on_target_appends (A : Type) (m : M A) (w : world) (s s' : state)
  (r : result A) :
  appends (fun e => quiet_event e = true) m ->
  on_target w s -> m w s = (r, s') -> on_target w s'.
Proof.
  intros Hm [HT HD] H.
  destruct (Hm _ _ _ _ H) as (_ & _ & _ & evs & Ht & F).
  unfold on_target. rewrite Ht.
  split; [apply targeted_quiet; assumption|].
  rewrite default_timeout_quiet; assumption.
Qed.

(** One click or fill, from a state on target. *)
Lemma on_target_interaction (w : world) (s s' : state) (r : result unit)
  (p : page) (settle : Z) (act : locator -> call) (selector : string)
  (n : nat) (t : option Z) :
  (forall l, interaction (act l) = Some (l, t)) ->
  t = Some 5000 \/ t = None ->
  on_target w s ->
  (fr <- last_page ;;
   await (WaitForTimeout p settle) ;;
   await (act (Locator fr selector n))) w s = (r, s') ->
  on_target w s'.
Proof.
  intros Hact Ht [HT HD] H. unfold bind, last_page, await in H.
  destruct (context s) as [cx|]; [|inversion H; subst; split; assumption].
  set (l := context_pages w (trace s)) in *.
  assert (T1 : on_target w (log (Pages l) s)).
  { split; simpl.
    - apply targeted_snoc; [exact HT|]. intros c r0 loc t0 Hc. discriminate.
    - rewrite default_timeout_snoc; [exact HD | intros ms; discriminate]. }
  destruct (last_opt l) as [fr|] eqn:Hfr; [|inversion H; subst; exact T1].
  simpl in H.
  set (o1 := outcome w (trace s ++ [Pages l]) (WaitForTimeout p settle)) in *.
  assert (T2 : on_target w (log (Call (WaitForTimeout p settle) o1)
                               (log (Pages l) s))).
  { destruct T1 as [T1 D1]. split; simpl.
    - apply targeted_snoc; [exact T1|]. intros c r0 loc t0 Hc Hi.
      inversion Hc; subst c. discriminate.
    - rewrite default_timeout_snoc; [exact D1 | intros ms; discriminate]. }
  destruct o1 as [e|] eqn:Eo1; [inversion H; subst; exact T2|].
  simpl in H.
  set (c := act (Locator fr selector n)) in *.
  assert (T3 : forall r0,
             on_target w (log (Call c r0)
                            (log (Call (WaitForTimeout p settle) None)
                               (log (Pages l) s)))).
  { intros r0. destruct T2 as [T2 D2]. split; simpl.
    - apply targeted_snoc; [exact T2|]. intros c' r' loc t0 Hc Hi.
      inversion Hc; subst c' r'. unfold c in Hi. rewrite Hact in Hi.
      inversion Hi; subst loc t0.
      exists (trace s), l, p, settle. split.
      + simpl. rewrite <- app_assoc. reflexivity.
      + split; [reflexivity|]. split; [exact Hfr|].
        simpl in D2. destruct Ht as [-> | ->]; [reflexivity | exact D2].
    - rewrite default_timeout_snoc; [exact D2|].
      intros ms Hc. inversion Hc as [Hc']. unfold c in Hc'.
      specialize (Hact (Locator fr selector n)). rewrite Hc' in Hact.
      discriminate. }
  match type of H with
  | context [outcome w ?h c] => destruct (outcome w h c) as [e|]
  end; inversion H; subst; apply T3.
Qed.

Lemma quiet_goto (p : page) (url wu : string) (t : Z) :
  appends (fun e => quiet_event e = true) (await (PageGoto p url wu t)).
Proof.
  apply appends_await. reflexivity.
Qed.

Lemma on_target_exec_step (w : world) (s s' : state) (r : result unit)
  (p : page) (st : step) :
  click_timeout_is 5000 st = true ->
  on_target w s -> exec_step p st w s = (r, s') -> on_target w s'.
Proof.
  intros Hst HT H. destruct st as [url wu t | sel n settle t | sel n settle v];
    simpl in H.
  - exact (on_target_appends (quiet_goto p url wu t) HT H).
  - simpl in Hst. apply Z.eqb_eq in Hst. subst t.
    apply (@on_target_interaction w s s' r p settle
             (fun l => LocatorClick l (Some 5000)) sel n (Some 5000));
      auto.
  - apply (@on_target_interaction w s s' r p settle
             (fun l => LocatorFill l v None) sel n None);
      auto.
Qed.

Lemma on_target_exec_steps (w : world) (p : page) (sts : list step) :
  forallb (click_timeout_is 5000) sts = true ->
  forall s s' r,
    on_target w s -> exec_steps p sts w s = (r, s') -> on_target w s'.
Proof.
  induction sts as [|st sts IH]; simpl; intros Hsts s s' r HT H.
  - inversion H; subst. exact HT.
  - apply andb_true_iff in Hsts. destruct Hsts as [Hst Hsts].
    unfold bind in H. destruct (exec_step p st w s) as [[[]|e] s1] eqn:E.
    + apply (IH Hsts s1 s' r); [|exact H].
      exact (on_target_exec_step _ _ Hst HT E).
    + inversion H; subst. exact (on_target_exec_step _ _ Hst HT E).
Qed.

Lemma keeps_target_bind (A B : Type) (w : world) (m : M A) (k : A -> M B) :
  keeps_target w m -> (forall a, keeps_target w (k a)) ->
  keeps_target w (bind m k).
Proof.
  intros Hm Hk s s' r HT H. unfold bind in H.
  destruct (m w s) as [[a|e] s1] eqn:E.
  - exact (Hk a _ _ _ (Hm _ _ _ HT E) H).
  - inversion H; subst. exact (Hm _ _ _ HT E).
Qed.

Lemma keeps_target_quiet (A : Type) (w : world) (m : M A) :
  appends (fun e => quiet_event e = true) m -> keeps_target w m.
Proof.
  intros Hm s s' r HT H. exact (on_target_appends Hm HT H).
Qed.

Lemma keeps_target_after_session (w : world) (g : list string) (sc : script)
  (p : page) :
  forallb (click_timeout_is 5000) (steps sc) = true ->
  keeps_target w (after_session g sc p).
Proof.
  intros Hsc. unfold after_session.
  apply keeps_target_bind; [|intros _; apply keeps_target_bind; [|intros _]].
  - apply keeps_target_bind; [|intros _; apply keeps_target_bind; [|intros _]].
    + apply keeps_target_quiet, quiet_goto.
    + apply keeps_target_quiet, appends_stabilize.
      * intros c r Hc. destruct c; try discriminate; reflexivity.
      * reflexivity.
    + intros s s' r. apply on_target_exec_steps. exact Hsc.
  - apply keeps_target_quiet, appends_check_assertion; reflexivity.
  - apply keeps_target_quiet, appends_await. reflexivity.
Qed.

Lemma targeted_session (w : world) (tr : list event) :
  forallb session_event tr = true -> targeted w tr.
Proof.
  intros H pre post c r loc t Heq Hi. subst tr.
  rewrite forallb_app in H. apply andb_true_iff in H. destruct H as [_ H].
  simpl in H. apply andb_true_iff in H. destruct H as [H _].
  destruct c; simpl in *; discriminate.
Qed.

Lemma clicks_of_corpus_use_5000 :
  forallb (fun sc => forallb (click_timeout_is 5000) (steps sc)) corpus = true.
Proof.
  vm_compute. reflexivity.
Qed.

(** In every run of a file of the corpus the trace keeps the invariant
    [targeted]. *)
Lemma run_test_targeted (sc : script) (w : world) :
  In sc corpus -> targeted w (trace (snd (run_test sc w init))).
Proof.
  intros Hin.
  assert (Hsc : forallb (click_timeout_is 5000) (steps sc) = true).
  { pose proof clicks_of_corpus_use_5000 as H.
    rewrite forallb_forall in H. exact (H sc Hin). }
  unfold run_test, run_test_in, bind, enter, try_finally. simpl.
  destruct (scenario_body module_globals sc w (State None None None []))
    as [r1 s1] eqn:Eb.
  assert (T1 : targeted w (trace s1)).
  { rewrite scenario_body_split in Eb.
    destruct (open_session w (State None None None [])) as [[p|e] s0] eqn:E;
      destruct (open_session_spec _ E) as (_ & Hse & Hs0).
    - specialize (Hs0 p eq_refl). subst s0.
      refine (proj1 (@keeps_target_after_session w _ sc p Hsc _ _ _ _ Eb)).
      split; [apply targeted_session; reflexivity | reflexivity].
    - inversion Eb; subst. apply targeted_session. exact Hse. }
  destruct (teardown w s1) as [r2 s2] eqn:Et.
  assert (T2 : targeted w (trace s2)).
  { destruct (@appends_teardown (fun e => quiet_event e = true)) with
      (w := w) (s := s1) (r := r2) (s' := s2)
      as (_ & _ & _ & evs & Ht & F).
    - intros c r Hc. destruct c; try reflexivity; exfalso; apply Hc;
        reflexivity.
    - exact Et.
    - rewrite Ht. apply targeted_quiet; assumption. }
  destruct r2 as [[]|e]; exact T2.
Qed.

(** A default other than the built-in one was set by a call that returned. *)
Lemma default_timeout_set (hist : list event) (ms : Z) :
  default_timeout hist = ms -> ms <> 30000 ->
  In (Call (SetDefaultTimeout ms) None) hist.
Proof.
  induction hist as [|e hist IH] using rev_ind; intros Hd Hms.
  - exfalso. apply Hms. symmetry. exact Hd.
  - unfold default_timeout in Hd. rewrite fold_left_app in Hd. simpl in Hd.
    fold (default_timeout hist) in Hd. apply in_or_app.
    destruct e as [c r| |]; try (left; exact (IH Hd Hms)).
    destruct c; try (left; exact (IH Hd Hms)).
    destruct r; [left; exact (IH Hd Hms)|].
    right. left. rewrite Hd. reflexivity.
Qed.

(** C7, as amended.  In every run of every file, each click and each fill is
    the last event of a group of three: the page list of the context is read
    at the start of the step (after everything the earlier steps did, so
    never a page remembered from an earlier step), then the settle delay of
    the step returns, then the action is made on a locator of the last page
    of the list that was read before the delay.  A click passes the explicit
    timeout of 5000 ms; a fill passes no timeout of its own, and
    [set_default_timeout(5000)] has returned on the context before it. *)
Theorem interactions_target_last_page (sc : script) (w : world)
  (pre post : list event) (c : call) (r : option exn) (loc : locator)
  (t : option Z) :
  In sc corpus ->
  trace (snd (run_test sc w init)) = pre ++ Call c r :: post ->
  interaction c = Some (loc, t) ->
  exists pre' l p ms,
    pre = pre' ++ [Pages l; Call (WaitForTimeout p ms) None] /\
    l = context_pages w pre' /\
    last_opt l = Some (loc_page loc) /\
    (t = Some 5000 \/
     (t = None /\ In (Call (SetDefaultTimeout 5000) None) pre')).
Proof.
  intros Hin Htr Hint.
  destruct (run_test_targeted w Hin pre post c r Htr Hint)
    as (pre' & l & p & ms & Hpre & Hl & Hlast & Htime).
  exists pre', l, p, ms. repeat split; try assumption.
  destruct t as [x|]; simpl in Htime.
  - left. rewrite Htime. reflexivity.
  - right. split; [reflexivity|].
    assert (Hset : In (Call (SetDefaultTimeout 5000) None) pre)
      by (apply default_timeout_set; [exact Htime | discriminate]).
    rewrite Hpre in Hset. apply in_app_or in Hset.
    destruct Hset as [Hset | [Hset | [Hset | []]]];
      [exact Hset | discriminate | discriminate].
Qed.

Lemma ninth_file_in_corpus : In TC009 corpus.
Proof.
  do 7 right. left. reflexivity.
Qed.

(** When the first click opens a second page, the second click is aimed at
    that page. *)
Lemma popup_click_lands_on_new_page :
  exists pre' l p ms,
    firstn 15 (trace (snd (run_test TC009 popup init))) =
      pre' ++ [Pages l; Call (WaitForTimeout p ms) None] /\
    l = context_pages popup pre' /\
    last_opt l = Some 2%nat /\
    (Some 5000 = Some 5000 \/
     (Some 5000 = None /\ In (Call (SetDefaultTimeout 5000) None) pre')).
Proof.
  apply (@interactions_target_last_page TC009 popup
           (firstn 15 (trace (snd (run_test TC009 popup init))))
           (skipn 16 (trace (snd (run_test TC009 popup init))))
           (LocatorClick
              (Locator 2%nat
                 "xpath=html/body/main/section[1]/div[2]/div[2]/a[2]/button" 0)
              (Some 5000))
           None
           (Locator 2%nat
              "xpath=html/body/main/section[1]/div[2]/div[2]/a[2]/button" 0)
           (Some 5000)
           ninth_file_in_corpus).
  - vm_compute. reflexivity.
  - reflexivity.
Defined.

(** C7, as stated, fails: when a second page opens during the settle delay
    of the first click of the ninth file, the click still goes to the page
    read before the delay (page 1), although at the moment of the click the
    last page of the context is page 2. *)
Lemma page_opened_during_settle_is_missed :
  nth_error (trace (snd (run_test TC009 late_popup init))) 12 =
    Some (Call
            (LocatorClick
               (Locator 1%nat
                  "xpath=html/body/main/section[1]/div[2]/div[2]/a[2]/button"
                  0)
               (Some 5000)) None) /\
  context_pages late_popup
    (firstn 12 (trace (snd (run_test TC009 late_popup init)))) =
    [1%nat; 2%nat] /\
  last_opt
    (context_pages late_popup
       (firstn 12 (trace (snd (run_test TC009 late_popup init))))) <>
    Some 1%nat.
Proof.
  split; [vm_compute; reflexivity|]. split; [vm_compute; reflexivity|].
  vm_compute. discriminate.
Qed.

(** * Further properties of [run_test] *)

(** ** What a run can append *)

Lemma emits_appends (A : Type) (P : event -> Prop) (m : M A) :
  appends P m -> emits P m.
Proof.
  intros Hm w s r s' H. destruct (Hm _ _ _ _ H) as (_ & _ & _ & evs & Ht & F).
  exists evs. split; assumption.
Qed.

Lemma emits_silent (A : Type) (P : event -> Prop) (m : M A) :
  (forall w s r s', m w s = (r, s') -> trace s' = trace s) -> emits P m.
Proof.
  intros Hm w s r s' H. exists []. rewrite app_nil_r.
  split; [exact (Hm _ _ _ _ H) | constructor].
Qed.

Lemma emits_bind (A B : Type) (P : event -> Prop) (m : M A) (k : A -> M B) :
  emits P m -> (forall a, emits P (k a)) -> emits P (bind m k).
Proof.
  intros Hm Hk w s r s' H. unfold bind in H.
  destruct (m w s) as [[a|e] s1] eqn:E.
  - destruct (Hm _ _ _ _ E) as (ev1 & Ht1 & F1).
    destruct (Hk a _ _ _ _ H) as (ev2 & Ht2 & F2).
    exists (ev1 ++ ev2). split.
    + rewrite Ht2, Ht1, app_assoc. reflexivity.
    + apply Forall_app. split; assumption.
  - inversion H; subst. exact (Hm _ _ _ _ E).
Qed.

Lemma emits_try_finally (A : Type) (P : event -> Prop) (body : M A)
  (cleanup : M unit) :
  emits P body -> emits P cleanup -> emits P (try_finally body cleanup).
Proof.
  intros Hb Hc w s r s' H. unfold try_finally in H.
  destruct (body w s) as [r1 s1] eqn:E.
  destruct (cleanup w s1) as [r2 s2] eqn:E2.
  destruct (Hb _ _ _ _ E) as (ev1 & Ht1 & F1).
  destruct (Hc _ _ _ _ E2) as (ev2 & Ht2 & F2).
  exists (ev1 ++ ev2). split.
  - destruct r2 as [[]|e]; inversion H; subst;
      rewrite Ht2, Ht1, app_assoc; reflexivity.
  - apply Forall_app. split; assumption.
Qed.

Lemma emits_open_session (P : event -> Prop) :
  (forall e, session_event e = true -> P e) -> emits P open_session.
Proof.
  intros HP.
  assert (Hawait : forall c, session_call c = true -> emits P (await c)).
  { intros c Hc. apply emits_appends, appends_await. intros r. apply HP.
    exact Hc. }
  unfold open_session.
  repeat (apply emits_bind; [|intros _]);
    try (apply Hawait; reflexivity);
    try (apply emits_silent; intros w s r s' H; inversion H; reflexivity).
  intros w s r s' H. unfold new_page in H.
  destruct (await NewPage w s) as [[[]|e] s1] eqn:E;
    inversion H; subst; exact (Hawait NewPage eq_refl _ _ _ _ E).
Qed.

(** What the assertion block does in the files as they are: it reads the
    page list and raises. *)
Lemma check_assertion_actual (a : assertion_block) (w : world) (s : state) :
  check_assertion module_globals (Some a) w s =
    match last_page w s with
    | (Ok _, s1) => (Raise (NameError "expect"), s1)
    | (Raise e, s1) => (Raise e, s1)
    end.
Proof.
  unfold check_assertion, bind.
  destruct (last_page w s) as [[fr|e] s1]; [|reflexivity].
  exact (assertion_try_block w s1 fr a).
Qed.

Lemma appends_navigation (P : event -> Prop) (sc : script) (p : page) :
  (forall e, body_event e = true -> is_visibility_check e = false ->
             is_sleep e = false -> P e) ->
  appends P (await (PageGoto p "http://localhost:3000" "commit" 10000) ;;
             stabilize p ;; exec_steps p (steps sc)).
Proof.
  intros HB.
  assert (Hawait : forall c,
             body_call c = true ->
             is_visibility_check (Call c None) = false ->
             is_sleep (Call c None) = false -> appends P (await c)).
  { intros c Hc Hv Hz. apply appends_await. intros r.
    apply HB; destruct c; try discriminate; reflexivity. }
  assert (Hpages : appends P last_page).
  { apply appends_last_page. intros l. apply HB; reflexivity. }
  apply appends_bind; [|intros _; apply appends_bind; [|intros _]].
  - apply Hawait; reflexivity.
  - apply appends_stabilize.
    + intros c r Hc. apply HB; destruct c; try discriminate; reflexivity.
    + intros l. apply HB; reflexivity.
  - induction (steps sc) as [|st sts IH]; simpl; [apply appends_ret|].
    apply appends_bind; [|intros _; exact IH].
    destruct st; simpl.
    + apply Hawait; reflexivity.
    + apply appends_bind; [exact Hpages|]. intros fr.
      apply appends_bind; [|intros _]; apply Hawait; reflexivity.
    + apply appends_bind; [exact Hpages|]. intros fr.
      apply appends_bind; [|intros _]; apply Hawait; reflexivity.
Qed.

Lemma emits_scenario_body (P : event -> Prop) (sc : script) :
  (forall e, session_event e = true -> P e) ->
  (forall e, body_event e = true -> is_visibility_check e = false ->
             is_sleep e = false -> P e) ->
  (assertion sc = None -> forall r, P (Call (Sleep 5) r)) ->
  emits P (scenario_body module_globals sc).
Proof.
  intros HS HB HZ. unfold scenario_body.
  assert (Hpages : emits P last_page).
  { apply emits_appends, appends_last_page. intros l. apply HB; reflexivity. }
  apply emits_bind.
  - unfold scenario_steps. apply emits_bind; [apply emits_open_session, HS|].
    intros p. apply emits_appends, appends_navigation. exact HB.
  - intros _. destruct (assertion sc) as [a|] eqn:Ha.
    + intros w s r s' H. unfold bind in H.
      rewrite check_assertion_actual in H.
      destruct (last_page w s) as [[fr|e] s1] eqn:E; inversion H; subst;
        exact (Hpages _ _ _ _ E).
    + apply emits_bind; [apply emits_silent; intros w s r s' H; inversion H;
                         reflexivity|].
      intros _. apply emits_appends, appends_await. apply HZ. reflexivity.
Qed.

Lemma emits_run_test (P : event -> Prop) (sc : script) :
  (forall e, session_event e = true -> P e) ->
  (forall e, body_event e = true -> is_visibility_check e = false ->
             is_sleep e = false -> P e) ->
  (assertion sc = None -> forall r, P (Call (Sleep 5) r)) ->
  (forall e, is_release e = true -> P e) ->
  emits P (run_test sc).
Proof.
  intros HS HB HZ HR. unfold run_test, run_test_in.
  apply emits_bind.
  - apply emits_silent. intros w s r s' H. inversion H. reflexivity.
  - intros _. apply emits_try_finally.
    + apply emits_scenario_body; assumption.
    + apply emits_appends, appends_teardown. intros c r Hc. apply HR.
      simpl. destruct (releases c); [reflexivity | congruence].
Qed.

Lemma existsb_none (A : Type) (f : A -> bool) (l : list A) :
  Forall (fun a => f a = false) l -> existsb f l = false.
Proof.
  induction 1 as [|a l Ha _ IH]; simpl; [reflexivity|].
  rewrite Ha. exact IH.
Qed.

Lemma visibility_checked_events (tr : list event) :
  visibility_checked tr = existsb is_visibility_check tr.
Proof.
  unfold visibility_checked, calls_of.
  induction tr as [|e tr IH]; simpl; [reflexivity|].
  rewrite existsb_app, IH. destruct e as [c r| |]; simpl; try reflexivity.
  rewrite orb_false_r. destruct c; reflexivity.
Qed.

(** X1.  A file that ends with an assertion block can never pass: whatever
    the browser does, its run raises. *)
Theorem file_with_assertion_never_passes (sc : script) (a : assertion_block)
  (w : world) :
  assertion sc = Some a -> fst (run_test sc w init) <> Ok tt.
Proof.
  intros Ha. unfold run_test, run_test_in, bind, enter, try_finally. simpl.
  destruct (scenario_body module_globals sc w (State None None None []))
    as [r1 s1] eqn:Eb.
  destruct (teardown w s1) as [[[]|e] s2]; simpl; [|discriminate].
  intros ->. unfold scenario_body, bind in Eb.
  destruct (scenario_steps sc w (State None None None [])) as [[[]|e] s0];
    [|discriminate].
  rewrite Ha, check_assertion_actual in Eb.
  destruct (last_page w s0) as [[fr|e] s3]; discriminate.
Qed.

(** Even when nothing raises, the first and the ninth file do not pass. *)
Lemma calm_files_with_assertion_fail :
  fst (run_test TC001 calm init) <> Ok tt /\
  fst (run_test TC009 calm init) <> Ok tt.
Proof.
  split.
  - refine (@file_with_assertion_never_passes TC001 _ calm eq_refl).
  - refine (@file_with_assertion_never_passes TC009 _ calm eq_refl).
Defined.

(** X2.  No run of any file ever makes a visibility check, and a file with
    an assertion block never reaches its final [asyncio.sleep(5)]. *)
Theorem no_run_checks_visibility (sc : script) (w : world) :
  visibility_checked (trace (snd (run_test sc w init))) = false /\
  (assertion sc <> None ->
   existsb is_sleep (trace (snd (run_test sc w init))) = false).
Proof.
  destruct (run_test sc w init) as [r s'] eqn:E. simpl.
  destruct (@emits_run_test
              (fun e => is_visibility_check e = false /\
                        (assertion sc <> None -> is_sleep e = false)) sc)
    with (w := w) (s := init) (r := r) (s' := s') as (evs & Ht & F).
  - intros e He. destruct e as [c x| |]; try discriminate.
    destruct c; try discriminate; split; reflexivity.
  - intros e _ Hv Hz. split; [exact Hv | intros _; exact Hz].
  - intros Ha x. split; [reflexivity | congruence].
  - intros e He. destruct e as [c x| |]; try discriminate.
    destruct c; try discriminate; split; reflexivity.
  - exact E.
  - simpl in Ht. rewrite Ht, visibility_checked_events. split.
    + apply existsb_none. eapply Forall_impl; [|exact F].
      intros e [H _]. exact H.
    + intros Ha. apply existsb_none. eapply Forall_impl; [|exact F].
      intros e [_ H]. exact (H Ha).
Qed.

(** ** Passing *)

Section Passing.

Variable w : world.

(** Nothing raises but waits for the load state, and those raise errors of
    the automation library only. *)
Hypothesis only_waits_raise :
  forall hist c e,
    outcome w hist c = Some e ->
    is_load_wait c = true /\ isinstance_Error e = true.

(** The context always has a page. *)
Hypothesis always_a_page : forall hist, context_pages w hist <> [].

Lemma other_calls_return (hist : list event) (c : call) :
  is_load_wait c = false -> outcome w hist c = None.
Proof.
  intros Hc. destruct (outcome w hist c) as [e|] eqn:E; [|reflexivity].
  destruct (only_waits_raise _ _ E) as [H _]. congruence.
Qed.

Lemma await_returns (c : call) (s : state) :
  is_load_wait c = false ->
  await c w s = (Ok tt, with_events s [Call c None]).
Proof.
  intros Hc. unfold await. rewrite (other_calls_return _ _ Hc). reflexivity.
Qed.

Lemma await_all_return (cs : list call) (s : state) :
  (forall c, In c cs -> is_load_wait c = false) ->
  await_all cs w s = (Ok tt, with_events s (map returned cs)).
Proof.
  revert s. induction cs as [|c cs IH]; intros s Hcs; simpl.
  - unfold ret. rewrite with_events_nil. reflexivity.
  - unfold bind. rewrite await_returns by (apply Hcs; left; reflexivity).
    rewrite IH by (intros c' Hc'; apply Hcs; right; exact Hc').
    rewrite with_events_app. reflexivity.
Qed.

Lemma teardown_returns (s : state) :
  teardown w s = (Ok tt, with_events s (map returned (release_plan s))).
Proof.
  rewrite teardown_plan. apply await_all_return.
  intros c Hc. destruct (release_plan_sound s c Hc) as (h & Hr & _).
  destruct c; try discriminate; reflexivity.
Qed.

Lemma open_session_returns (s : state) :
  exists p s1,
    open_session w s = (Ok p, s1) /\ context s1 = Some ContextObj.
Proof.
  unfold open_session, new_page, bind, assign_pw, assign_browser,
    assign_context.
  repeat (rewrite await_returns by reflexivity; simpl).
  eexists. eexists. split; reflexivity.
Qed.

Lemma last_page_returns (s : state) (cx : context_obj) :
  context s = Some cx ->
  exists fr, last_page w s =
               (Ok fr, with_events s [Pages (context_pages w (trace s))]).
Proof.
  intros Hc. unfold last_page. rewrite Hc.
  destruct (last_opt_nonempty (always_a_page (trace s))) as [fr Hfr].
  exists fr. rewrite Hfr. reflexivity.
Qed.

Lemma exec_step_returns (p : page) (st : step) (s : state)
  (cx : context_obj) :
  context s = Some cx ->
  exists evs, exec_step p st w s = (Ok tt, with_events s evs).
Proof.
  intros Hc. destruct st; simpl.
  - eexists. apply await_returns. reflexivity.
  - destruct (last_page_returns s Hc) as [fr Hfr].
    unfold bind. rewrite Hfr.
    repeat (rewrite await_returns by reflexivity).
    rewrite !with_events_app. eexists. reflexivity.
  - destruct (last_page_returns s Hc) as [fr Hfr].
    unfold bind. rewrite Hfr.
    repeat (rewrite await_returns by reflexivity).
    rewrite !with_events_app. eexists. reflexivity.
Qed.

Lemma exec_steps_return (p : page) (sts : list step) (s : state)
  (cx : context_obj) :
  context s = Some cx ->
  exists evs, exec_steps p sts w s = (Ok tt, with_events s evs).
Proof.
  revert s. induction sts as [|st sts IH]; intros s Hc; simpl.
  - exists []. unfold ret. rewrite with_events_nil. reflexivity.
  - destruct (exec_step_returns p st s Hc) as [ev1 H1].
    unfold bind. rewrite H1.
    destruct (IH (with_events s ev1) Hc) as [ev2 H2].
    rewrite H2, with_events_app. eexists. reflexivity.
Qed.

Lemma waits_raise_errors :
  forall hist c e,
    is_load_wait c = true -> outcome w hist c = Some e ->
    isinstance_Error e = true.
Proof.
  intros hist c e _ He. exact (proj2 (only_waits_raise _ _ He)).
Qed.

Lemma scenario_body_returns (sc : script) :
  assertion sc = None ->
  exists s1, scenario_body module_globals sc w init = (Ok tt, s1).
Proof.
  intros Ha.
  destruct (open_session_returns init) as (p & s1 & Ho & Hc).
  pose proof (await_returns
                (PageGoto p "http://localhost:3000" "commit" 10000) s1
                eq_refl) as Hg.
  destruct (stabilize_returns w waits_raise_errors p
              (with_events s1
                 [Call (PageGoto p "http://localhost:3000" "commit" 10000)
                    None]))
    as (r0 & fs & fevs & Hst & _).
  match type of Hst with
  | _ = (_, ?s3) =>
      destruct (exec_steps_return p (steps sc) s3 Hc) as [evs He]
  end.
  eexists. unfold scenario_body, scenario_steps.
  rewrite (@bind_ok _ _ _ _ _ _ _ _
             (eq_trans (@bind_ok _ _ _ _ _ _ _ _ Ho)
                (eq_trans (@bind_ok _ _ _ _ _ _ _ _ Hg)
                   (eq_trans (@bind_ok _ _ _ _ _ _ _ _ Hst) He)))).
  rewrite Ha. simpl. unfold bind, ret.
  rewrite await_returns by reflexivity. reflexivity.
Qed.

End Passing.

(** X3.  A file without an assertion block passes whenever the browser
    cooperates: if no call raises except waits for [domcontentloaded], which
    raise library errors only, and the context has a page whenever its page
    list is read, then the run returns and has made every declared action. *)
Theorem file_without_assertion_passes (sc : script) (w : world) :
  assertion sc = None ->
  (forall hist c e,
     outcome w hist c = Some e ->
     is_load_wait c = true /\ isinstance_Error e = true) ->
  (forall hist, context_pages w hist <> []) ->
  fst (run_test sc w init) = Ok tt /\
  performed (trace (snd (run_test sc w init))) =
    map completed (declared_actions sc).
Proof.
  intros Ha H1 H2.
  assert (Hok : fst (run_test sc w init) = Ok tt).
  { destruct (@scenario_body_returns w H1 H2 sc Ha) as [s1 Hb].
    unfold run_test, run_test_in, bind, enter, try_finally. simpl.
    change (State None None None []) with init.
    rewrite Hb, (@teardown_returns w H1). reflexivity. }
  split; [exact Hok|].
  destruct (run_test sc w init) as [r s'] eqn:E.
  destruct (@performs_run_test module_globals sc _ _ _ _ E)
    as (evs & Ht & _ & F).
  simpl in *. rewrite Ht. apply (F tt). exact Hok.
Qed.

Lemma slow_dom_only_waits_raise :
  forall hist c e,
    outcome slow_dom hist c = Some e ->
    is_load_wait c = true /\ isinstance_Error e = true.
Proof.
  intros hist c e. simpl. destruct (is_load_wait c); [|discriminate].
  intros H. inversion H. split; reflexivity.
Qed.

(** The third file passes although every wait for the DOM times out. *)
Lemma third_file_passes_on_slow_dom :
  fst (run_test TC003 slow_dom init) = Ok tt /\
  performed (trace (snd (run_test TC003 slow_dom init))) =
    map completed (declared_actions TC003).
Proof.
  apply (@file_without_assertion_passes TC003 slow_dom eq_refl
           slow_dom_only_waits_raise).
  intros hist. discriminate.
Defined.

(** ** What a passing run cannot hide *)

Lemma strict_silent (A : Type) (m : M A) :
  (forall w s r s', m w s = (r, s') -> trace s' = trace s) -> strict m.
Proof.
  intros Hm w s r s' H. exists []. rewrite app_nil_r.
  split; [exact (Hm _ _ _ _ H) | constructor].
Qed.

Lemma strict_read_event (A : Type) (m : M A) :
  (forall w s r s', m w s = (r, s') ->
     trace s' = trace s \/
     exists e, trace s' = trace s ++ [e] /\ benign e = true) ->
  strict m.
Proof.
  intros Hm w s r s' H. destruct (Hm _ _ _ _ H) as [Ht | (e & Ht & He)].
  - exists []. rewrite app_nil_r. split; [exact Ht | constructor].
  - exists [e]. split; [exact Ht|]. intros _ _. constructor; [exact He|].
    constructor.
Qed.

Lemma strict_bind (A B : Type) (m : M A) (k : A -> M B) :
  strict m -> (forall a, strict (k a)) -> strict (bind m k).
Proof.
  intros Hm Hk w s r s' H. unfold bind in H.
  destruct (m w s) as [[a|e] s1] eqn:E.
  - destruct (Hm _ _ _ _ E) as (ev1 & Ht1 & F1).
    destruct (Hk a _ _ _ _ H) as (ev2 & Ht2 & F2).
    exists (ev1 ++ ev2). split.
    + rewrite Ht2, Ht1, app_assoc. reflexivity.
    + intros b Hb. apply Forall_app. split; [apply (F1 a eq_refl)|].
      apply (F2 b Hb).
  - inversion H; subst. destruct (Hm _ _ _ _ E) as (ev1 & Ht1 & _).
    exists ev1. split; [exact Ht1 | discriminate].
Qed.

Lemma strict_await (c : call) : strict (await c).
Proof.
  intros w s r s' H. unfold await in H.
  exists [Call c (outcome w (trace s) c)].
  destruct (outcome w (trace s) c) as [e|]; inversion H; subst; simpl.
  - split; [reflexivity | discriminate].
  - split; [reflexivity|]. intros _ _. repeat constructor.
Qed.

Lemma strict_best_effort_wait (c : call) :
  is_load_wait c = true -> strict (best_effort (await c)).
Proof.
  intros Hc w s r s' H. unfold best_effort, try_except, await, ret in H.
  exists [Call c (outcome w (trace s) c)].
  destruct (outcome w (trace s) c) as [e|].
  - destruct (isinstance_Error e) eqn:He; inversion H; subst; simpl.
    + split; [reflexivity|]. intros _ _. constructor; [|constructor].
      simpl. rewrite Hc, He. reflexivity.
    + split; [reflexivity | discriminate].
  - inversion H; subst. split; [reflexivity|]. intros _ _.
    repeat constructor.
Qed.

(** [try: m except C: raise ...]: it returns only when [m] does. *)
Lemma strict_try_reraise (A : Type) (m : M A) (catches : exn -> bool)
  (e' : exn) :
  strict m -> strict (try_except m catches (fun _ => raise e')).
Proof.
  intros Hm w s r s' H. unfold try_except, raise in H.
  destruct (m w s) as [[a|e] s1] eqn:E.
  - inversion H; subst. exact (Hm _ _ _ _ E).
  - destruct (Hm _ _ _ _ E) as (ev1 & Ht1 & _).
    exists ev1. destruct (catches e); inversion H; subst;
      (split; [exact Ht1 | discriminate]).
Qed.

Lemma strict_try_finally (A : Type) (body : M A) (cleanup : M unit) :
  strict body -> strict cleanup -> strict (try_finally body cleanup).
Proof.
  intros Hb Hc w s r s' H. unfold try_finally in H.
  destruct (body w s) as [r1 s1] eqn:E.
  destruct (cleanup w s1) as [r2 s2] eqn:E2.
  destruct (Hb _ _ _ _ E) as (ev1 & Ht1 & F1).
  destruct (Hc _ _ _ _ E2) as (ev2 & Ht2 & F2).
  exists (ev1 ++ ev2).
  destruct r2 as [[]|e]; inversion H; subst;
    (split; [rewrite Ht2, Ht1, app_assoc; reflexivity|]);
    [|discriminate].
  intros a Ha. apply Forall_app. split; [exact (F1 a Ha)|].
  exact (F2 tt eq_refl).
Qed.

Lemma strict_last_page : strict last_page.
Proof.
  apply strict_read_event. intros w s r s' H. unfold last_page in H.
  destruct (context s); [|inversion H; left; reflexivity].
  right. exists (Pages (context_pages w (trace s))).
  split; [|reflexivity].
  destruct (last_opt (context_pages w (trace s))); inversion H; reflexivity.
Qed.

Lemma strict_stabilize (p : page) : strict (stabilize p).
Proof.
  unfold stabilize. apply strict_bind.
  - apply strict_best_effort_wait. reflexivity.
  - intros _. apply strict_bind.
    + apply strict_read_event. intros w s r s' H. inversion H; subst.
      right. eexists. split; reflexivity.
    + intros fs. induction fs as [|f fs IH]; simpl.
      * apply strict_silent. intros w s r s' H. inversion H. reflexivity.
      * apply strict_bind; [|intros _; exact IH].
        apply strict_best_effort_wait. reflexivity.
Qed.

Lemma strict_exec_steps (p : page) (sts : list step) :
  strict (exec_steps p sts).
Proof.
  induction sts as [|st sts IH]; simpl.
  - apply strict_silent. intros w s r s' H. inversion H. reflexivity.
  - apply strict_bind; [|intros _; exact IH].
    destruct st; simpl; [apply strict_await| |];
      (apply strict_bind; [apply strict_last_page|]; intros fr;
       apply strict_bind; [apply strict_await|]; intros _;
       apply strict_await).
Qed.

Lemma strict_open_session : strict open_session.
Proof.
  unfold open_session.
  repeat (apply strict_bind; [|intros _]);
    try apply strict_await;
    try (apply strict_silent; intros w s r s' H; inversion H; reflexivity).
  intros w s r s' H. unfold new_page in H.
  destruct (await NewPage w s) as [[[]|e] s1] eqn:E.
  - destruct (@strict_await NewPage _ _ _ _ E) as (evs & Ht & F). inversion H; subst.
    exists evs. split; [exact Ht|]. intros _ _. exact (F tt eq_refl).
  - destruct (@strict_await NewPage _ _ _ _ E) as (evs & Ht & _). inversion H; subst.
    exists evs. split; [exact Ht | discriminate].
Qed.

Lemma strict_check_assertion (g : list string) (a : option assertion_block) :
  strict (check_assertion g a).
Proof.
  destruct a as [a|]; simpl.
  - apply strict_bind; [apply strict_last_page|]. intros fr.
    apply strict_try_reraise. apply strict_bind; [|intros _; apply strict_await].
    apply strict_silent. intros w s r s' H. unfold load_global in H.
    destruct (bound_in g "expect" || bound_in builtins "expect");
      inversion H; reflexivity.
  - apply strict_silent. intros w s r s' H. inversion H. reflexivity.
Qed.

Lemma strict_teardown : strict teardown.
Proof.
  unfold teardown.
  repeat (apply strict_bind;
          [try (apply strict_silent; intros w s r s' H; inversion H;
                reflexivity) | intros ?]);
    try (match goal with
         | |- strict (if_set ?v _) => destruct v; simpl
         end);
    try apply strict_await;
    apply strict_silent; intros w s r s' H; inversion H; reflexivity.
Qed.

Lemma strict_run_test (g : list string) (sc : script) :
  strict (run_test_in g sc).
Proof.
  unfold run_test_in. apply strict_bind.
  - apply strict_silent. intros w s r s' H. inversion H. reflexivity.
  - intros _. apply strict_try_finally; [|apply strict_teardown].
    unfold scenario_body, scenario_steps.
    apply strict_bind; [|intros _; apply strict_bind;
                                   [apply strict_check_assertion|
                                    intros _; apply strict_await]].
    apply strict_bind; [apply strict_open_session|]. intros p.
    apply strict_bind; [apply strict_await|]. intros _.
    apply strict_bind; [apply strict_stabilize|]. intros _.
    apply strict_exec_steps.
Qed.

(** X4.  A run that returns hides no failure but the best-effort ones: if
    [run_test] returns, the only calls of its trace that raised are waits
    for the load state, and what they raised are errors of the automation
    library.  No click, fill, navigation, session or release call that
    raised is ever followed by a normal return. *)
Theorem passing_run_hides_only_waits (sc : script) (w : world) :
  fst (run_test sc w init) = Ok tt ->
  forallb benign (trace (snd (run_test sc w init))) = true.
Proof.
  destruct (run_test sc w init) as [r s'] eqn:E. simpl. intros ->.
  destruct (@strict_run_test module_globals sc _ _ _ _ E) as (evs & Ht & F).
  simpl in Ht. rewrite Ht. apply forallb_forall.
  apply Forall_forall. exact (F tt eq_refl).
Qed.

(** The passing run of the third file on a slow DOM: its failed calls are
    the timed-out waits only. *)
Lemma slow_dom_pass_hides_only_waits :
  forallb benign (trace (snd (run_test TC003 slow_dom init))) = true.
Proof.
  apply passing_run_hides_only_waits. vm_compute. reflexivity.
Defined.

(** ** The loop over the frames *)

(** X5.  The loop over the frames attempts the wait on each frame in order
    and swallows library errors.  It ends early only at a wait that raises
    something else: that exception leaves the loop, the frames before it
    were attempted and the frames after it are not. *)
Theorem frame_loop_stops_only_at_foreign_error (fs : list frame) (w : world)
  (s : state) :
  exists evs,
    snd (wait_frames fs w s) = with_events s evs /\
    ((fst (wait_frames fs w s) = Ok tt /\
      calls_of evs = map frame_wait fs /\
      forallb benign evs = true) \/
     (exists fs1 f fs2 e,
         fs = fs1 ++ f :: fs2 /\
         fst (wait_frames fs w s) = Raise e /\
         isinstance_Error e = false /\
         calls_of evs = map frame_wait (fs1 ++ [f]) /\
         In (Call (frame_wait f) (Some e)) evs)).
Proof.
  revert s. induction fs as [|f fs IH]; intros s.
  - exists []. simpl. rewrite with_events_nil. split; [reflexivity|].
    left. repeat split.
  - simpl. unfold bind, best_effort, try_except, await, ret.
    fold (frame_wait f).
    destruct (outcome w (trace s) (frame_wait f)) as [e|] eqn:Eo.
    + destruct (isinstance_Error e) eqn:He.
      * destruct (IH (log (Call (frame_wait f) (Some e)) s))
          as (evs & Hs & H).
        exists (Call (frame_wait f) (Some e) :: evs). split.
        { rewrite Hs. unfold log, with_events. simpl.
          rewrite <- app_assoc. reflexivity. }
        destruct H as [(Hr & Hc & Hb) | (fs1 & f' & fs2 & e' & Hf & Hr & Hn & Hc & Hi)].
        -- left. split; [exact Hr|]. split; [simpl; rewrite Hc; reflexivity|].
           simpl. rewrite He, Hb. reflexivity.
        -- right. exists (f :: fs1), f', fs2, e'. split; [rewrite Hf; reflexivity|].
           split; [exact Hr|]. split; [exact Hn|].
           split; [simpl; rewrite Hc; reflexivity | right; exact Hi].
      * exists [Call (frame_wait f) (Some e)]. simpl.
        split; [reflexivity|]. right. exists [], f, fs, e.
        repeat split; try assumption. left. reflexivity.
    + destruct (IH (log (Call (frame_wait f) None) s)) as (evs & Hs & H).
      exists (Call (frame_wait f) None :: evs). split.
      { rewrite Hs. unfold log, with_events. simpl.
        rewrite <- app_assoc. reflexivity. }
      destruct H as [(Hr & Hc & Hb) | (fs1 & f' & fs2 & e' & Hf & Hr & Hn & Hc & Hi)].
      * left. split; [exact Hr|]. split; [simpl; rewrite Hc; reflexivity|].
        simpl. exact Hb.
      * right. exists (f :: fs1), f', fs2, e'. split; [rewrite Hf; reflexivity|].
        split; [exact Hr|]. split; [exact Hn|].
        split; [simpl; rewrite Hc; reflexivity | right; exact Hi].
Qed.

(** ** A context without a page *)

(** X6.  When the page list of the context is empty, a click step and a fill
    step raise [IndexError] right after reading the list: the settle delay
    and the action are not attempted.  The assertion block does the same
    before it ever looks up [expect]. *)
Theorem empty_page_list_raises_index_error (w : world) (s : state)
  (p : page) :
  context s <> None ->
  context_pages w (trace s) = [] ->
  (forall selector n settle timeout,
     exec_step p (Click selector n settle timeout) w s =
       (Raise (IndexError "list index out of range"),
        with_events s [Pages []])) /\
  (forall selector n settle value,
     exec_step p (Fill selector n settle value) w s =
       (Raise (IndexError "list index out of range"),
        with_events s [Pages []])) /\
  (forall g a,
     check_assertion g (Some a) w s =
       (Raise (IndexError "list index out of range"),
        with_events s [Pages []])).
Proof.
  intros Hc Hp.
  assert (H : last_page w s =
              (Raise (IndexError "list index out of range"),
               with_events s [Pages []])).
  { unfold last_page. destruct (context s); [|congruence].
    rewrite Hp. reflexivity. }
  repeat split; intros; simpl; unfold bind; rewrite H; reflexivity.
Qed.

(** In a context without a page the first file, past its navigation, stops
    at its first click with [IndexError]; nothing was clicked. *)
Lemma no_page_first_click :
  fst (run_test TC001 no_page init) =
    Raise (IndexError "list index out of range") /\
  performed (trace (snd (run_test TC001 no_page init))) =
    [(AGoto "http://localhost:3000", true);
     (AGoto "http://localhost:3000", true)] /\
  exec_step 1%nat (Click "xpath=html/body/div[6]/button" 0 3000 5000) no_page
    all_open =
    (Raise (IndexError "list index out of range"),
     with_events all_open [Pages []]).
Proof.
  split; [vm_compute; reflexivity|]. split; [vm_compute; reflexivity|].
  apply (@empty_page_list_raises_index_error no_page all_open 1%nat);
    [discriminate | reflexivity].
Defined.

(** ** Finer accounts of what the body appends *)

Lemma appends_stabilize_on (P : event -> Prop) (p : page) :
  (forall r, P (Call (PageWaitForLoadState p "domcontentloaded" 3000) r)) ->
  (forall f r, P (Call (frame_wait f) r)) ->
  (forall l, P (Frames p l)) ->
  appends P (stabilize p).
Proof.
  intros HM HF HL. unfold stabilize.
  apply appends_bind; [apply appends_best_effort, appends_await, HM|].
  intros _. apply appends_bind; [apply appends_read_frames, HL|].
  intros fs. induction fs as [|f fs IH]; simpl; [apply appends_ret|].
  apply appends_bind; [|intros _; exact IH].
  apply appends_best_effort, appends_await. apply HF.
Qed.

Lemma appends_steps_on (P : event -> Prop) (p : page) (sts : list step) :
  (forall l, P (Pages l)) ->
  (forall st fr c r,
     In st sts -> In c (step_calls p fr st) -> P (Call c r)) ->
  appends P (exec_steps p sts).
Proof.
  intros HL. induction sts as [|st sts IH]; intros HC; simpl.
  - apply appends_ret.
  - apply appends_bind.
    + assert (Hst : forall fr c r, In c (step_calls p fr st) -> P (Call c r)).
      { intros fr c r Hc. apply (HC st fr c r); [left; reflexivity | exact Hc]. }
      destruct st; simpl.
      * apply appends_await. intros r. apply (Hst p). left. reflexivity.
      * apply appends_bind; [apply appends_last_page, HL|]. intros fr.
        apply appends_bind; [|intros _]; apply appends_await; intros r;
          apply (Hst fr); simpl; auto.
      * apply appends_bind; [apply appends_last_page, HL|]. intros fr.
        apply appends_bind; [|intros _]; apply appends_await; intros r;
          apply (Hst fr); simpl; auto.
    + intros _. apply IH. intros st' fr c r Hin Hc.
      apply (HC st' fr c r); [right; exact Hin | exact Hc].
Qed.

(** ** The page of the page-level calls *)

Lemma open_session_page (w : world) (p : page) (s0 : state) :
  open_session w (State None None None []) = (Ok p, s0) ->
  p = opened_page w (firstn 4 session_events).
Proof.
  unfold open_session, new_page, bind, await, assign_pw, assign_browser,
    assign_context, log. simpl.
  case_outcomes; intros H; inversion H; reflexivity.
Qed.

Lemma appends_on_page (g : list string) (sc : script) (p : page) :
  appends (fun e => on_page p e = true) (after_session g sc p).
Proof.
  unfold after_session.
  apply appends_bind; [|intros _; apply appends_bind; [|intros _]].
  - apply appends_bind; [|intros _; apply appends_bind; [|intros _]].
    + apply appends_await. intros r. apply Nat.eqb_refl.
    + apply appends_stabilize_on; try reflexivity.
      intros r. apply Nat.eqb_refl.
    + apply appends_steps_on; [reflexivity|].
      intros st fr c r _ Hc. destruct st; simpl in Hc;
        repeat (destruct Hc as [<-|Hc]); try contradiction;
        try reflexivity; apply Nat.eqb_refl.
  - apply appends_check_assertion; reflexivity.
  - apply appends_await. reflexivity.
Qed.

Lemma forallb_of_Forall (f : event -> bool) (l : list event) :
  Forall (fun e => f e = true) l -> forallb f l = true.
Proof.
  intros F. apply forallb_forall. apply Forall_forall. exact F.
Qed.

(** What a run leaves: the trace of the body, then the events of the
    [finally] block. *)
Lemma run_test_trace (sc : script) (w : world) :
  exists r1 s1 evs,
    scenario_body module_globals sc w (State None None None []) = (r1, s1) /\
    snd (teardown w s1) = with_events s1 evs /\
    (forall ev, In ev evs ->
       exists c r, ev = Call c r /\ In c (release_plan s1)) /\
    trace (snd (run_test sc w init)) = trace s1 ++ evs /\
    fst (run_test sc w init) =
      match fst (teardown w s1) with
      | Ok _ => r1
      | Raise e => Raise e
      end.
Proof.
  unfold run_test, run_test_in, bind, enter, try_finally. simpl.
  destruct (scenario_body module_globals sc w (State None None None []))
    as [r1 s1] eqn:Eb.
  destruct (teardown_events_in_plan w s1) as (evs & Hs & Hin & _).
  exists r1, s1, evs. split; [reflexivity|]. split; [exact Hs|].
  split; [exact Hin|].
  destruct (teardown w s1) as [[[]|e] s2]; simpl in *; subst s2;
    split; reflexivity.
Qed.

Lemma release_events (s : state) (evs : list event) :
  (forall ev, In ev evs -> exists c r, ev = Call c r /\ In c (release_plan s)) ->
  Forall (fun e => is_release e = true) evs.
Proof.
  intros Hin. apply Forall_forall. intros ev Hev.
  destruct (Hin ev Hev) as (c & r & -> & Hc).
  destruct (release_plan_sound s c Hc) as (h & Hr & _).
  simpl. rewrite Hr. reflexivity.
Qed.

(** X7.  Every navigation, every wait for the load state of the page and
    every settle delay of a run is made on one page: the page that
    [new_page] returned when the session was opened.  This holds also when
    the click or fill that follows a settle delay goes to a newer page of
    the context. *)
Theorem page_calls_stay_on_first_page (sc : script) (w : world) :
  forallb (on_page (opened_page w (firstn 4 session_events)))
    (trace (snd (run_test sc w init))) = true.
Proof.
  destruct (run_test_trace sc w) as (r1 & s1 & evs & Eb & _ & Hin & Ht & _).
  rewrite Ht, forallb_app. apply andb_true_iff. split.
  - rewrite scenario_body_split in Eb.
    destruct (open_session w (State None None None [])) as [[p|e] s0] eqn:E;
      destruct (open_session_spec _ E) as (_ & Hse & Hs0).
    + specialize (Hs0 p eq_refl). subst s0.
      rewrite <- (open_session_page _ E).
      destruct (appends_on_page _ _ _ _ _ Eb) as (_ & _ & _ & ev1 & Ht1 & F).
      rewrite Ht1. simpl trace. rewrite forallb_app.
      apply andb_true_iff. split; [reflexivity|].
      apply forallb_of_Forall. exact F.
    + inversion Eb; subst. apply forallb_forall. intros ev Hev.
      rewrite forallb_forall in Hse. specialize (Hse ev Hev).
      destruct ev as [c r| |]; try discriminate.
      destruct c; try discriminate; reflexivity.
  - apply forallb_of_Forall. eapply Forall_impl; [|exact (@release_events s1 evs Hin)].
    intros ev Hev. destruct ev as [c r| |]; try discriminate.
    destruct c; try discriminate; reflexivity.
Qed.

(** ** Nothing after the release *)

(** X8.  The trace of a run is the trace of the [try] body, in which no
    release call occurs, followed by the calls of the [finally] block, which
    are release calls only: once the first handle is being closed, nothing
    else is ever asked of the browser. *)
Theorem nothing_follows_the_release (sc : script) (w : world) :
  exists before after,
    trace (snd (run_test sc w init)) = before ++ after /\
    existsb is_release before = false /\
    forallb is_release after = true.
Proof.
  destruct (run_test_trace sc w) as (r1 & s1 & evs & Eb & _ & Hin & Ht & _).
  exists (trace s1), evs. split; [exact Ht|]. split.
  - destruct (@emits_scenario_body (fun e => is_release e = false) sc)
      with (w := w) (s := State None None None []) (r := r1) (s' := s1)
      as (ev1 & Ht1 & F).
    + intros e He. destruct e as [c r| |]; try discriminate.
      destruct c; try discriminate; reflexivity.
    + intros e He _ _. destruct e as [c r| |]; try reflexivity.
      destruct c; try discriminate; reflexivity.
    + reflexivity.
    + exact Eb.
    + rewrite Ht1. apply existsb_none. exact F.
  - apply forallb_of_Forall. exact (@release_events s1 evs Hin).
Qed.

(** ** Failures before the steps *)

(** X9.  When opening the session raises, none of the statements of the
    file is reached.  The trace of the body holds session calls only, the
    variables seen by the [finally] block are exactly the handles whose
    creating call returned, and the run ends with the error of the session,
    or with that of a release call if one raises. *)
Theorem setup_failure_skips_the_script (sc : script) (w : world) (e : exn)
  (s1 : state) :
  open_session w init = (Raise e, s1) ->
  run_test sc w init =
    (match fst (teardown w s1) with
     | Ok _ => Raise e
     | Raise e' => Raise e'
     end, snd (teardown w s1)) /\
  forallb session_event (trace s1) = true /\
  (forall h, acquired h (trace s1) = b2n (holds h s1)).
Proof.
  intros Ho. destruct (open_session_spec _ Ho) as (Hc & Hse & _).
  split; [|split; [exact Hse | intros h; apply Hc]].
  unfold run_test, run_test_in, bind, enter, try_finally. simpl.
  rewrite scenario_body_split. change (State None None None []) with init.
  rewrite Ho. destruct (teardown w s1) as [[[]|e'] s2]; reflexivity.
Qed.

(** When the browser does not launch, the run of any file is: start, failed
    launch, stop. *)
Lemma failed_launch_stops_the_runtime :
  calls_of (trace (snd (run_test TC004 launch_and_stop_fail init))) =
    [Start; Launch true chromium_args; Stop].
Proof.
  pose (s1 := snd (open_session launch_and_stop_fail init)).
  destruct (@setup_failure_skips_the_script TC004 launch_and_stop_fail
              (Error "Executable doesn't exist") s1 eq_refl) as (Hrun & _).
  rewrite Hrun. reflexivity.
Defined.

(** X10.  When the session is open and the first navigation raises (the
    application is not reachable), the run makes no further call on the
    page: it goes straight to the [finally] block, which finds the three
    handles set, and ends with the error of the navigation unless a release
    call raises. *)
Theorem first_navigation_failure_ends_the_run (sc : script) (w : world)
  (p : page) (s0 : state) (e : exn) :
  open_session w init = (Ok p, s0) ->
  outcome w (trace s0) (PageGoto p "http://localhost:3000" "commit" 10000)
    = Some e ->
  let s1 :=
    with_events s0
      [Call (PageGoto p "http://localhost:3000" "commit" 10000) (Some e)] in
  run_test sc w init =
    (match fst (teardown w s1) with
     | Ok _ => Raise e
     | Raise e' => Raise e'
     end, snd (teardown w s1)) /\
  trace s1 = session_events ++
    [Call (PageGoto p "http://localhost:3000" "commit" 10000) (Some e)] /\
  release_plan s1 = [ContextClose; BrowserClose; Stop].
Proof.
  intros Ho Hg s1.
  destruct (open_session_spec _ Ho) as (_ & _ & Hs0).
  specialize (Hs0 p eq_refl).
  assert (Hb : scenario_body module_globals sc w init = (Raise e, s1)).
  { rewrite scenario_body_split, Ho. unfold after_session, bind, await.
    rewrite Hg. reflexivity. }
  split; [|subst s0; split; reflexivity].
  unfold run_test, run_test_in, bind, enter, try_finally. simpl.
  change (State None None None []) with init. rewrite Hb.
  destruct (teardown w s1) as [[[]|e'] s2]; reflexivity.
Qed.

(** With the application down, the first file opens the session, fails to
    navigate and closes everything. *)
Lemma server_down_run :
  fst (run_test TC001 server_down init) =
    Raise (Error "net::ERR_CONNECTION_REFUSED") /\
  calls_of (trace (snd (run_test TC001 server_down init))) =
    [Start; Launch true chromium_args; NewContext; SetDefaultTimeout 5000;
     NewPage; PageGoto 1%nat "http://localhost:3000" "commit" 10000;
     ContextClose; BrowserClose; Stop].
Proof.
  pose (s0 := snd (open_session server_down init)).
  destruct (@first_navigation_failure_ends_the_run TC001 server_down 1%nat s0
              (Error "net::ERR_CONNECTION_REFUSED") eq_refl eq_refl)
    as (Hrun & _).
  rewrite Hrun. split; reflexivity.
Defined.

(** ** A release call that raises *)

Lemma count_positive (f : event -> bool) (tr : list event) (e : event) :
  In e tr -> f e = true -> (1 <= count f tr)%nat.
Proof.
  intros Hin Hf. apply in_split in Hin. destruct Hin as (a & b & ->).
  change (e :: b) with ([e] ++ b). rewrite !count_app.
  unfold count at 2. simpl. rewrite Hf. simpl. lia.
Qed.

(** X11.  A release call that raises decides the outcome of the run: the
    run ends with that exception, whatever the body did before, so the
    failure of a step or of the session is replaced by the error of the
    [close] or [stop] that raised. *)
Theorem release_error_masks_the_outcome (sc : script) (w : world) (k : nat)
  (c : call) (e : exn) :
  nth_error (trace (snd (run_test sc w init))) k = Some (Call c (Some e)) ->
  releases c <> None ->
  fst (run_test sc w init) = Raise e.
Proof.
  intros Hk Hc. apply nth_error_In in Hk.
  destruct (run_test_trace sc w) as (r1 & s1 & evs & Eb & Hs & _ & Ht & Hr).
  rewrite Ht in Hk. rewrite Hr. clear Ht Hr.
  apply in_app_or in Hk. destruct Hk as [Hk|Hk].
  - exfalso. destruct (releases c) as [h|] eqn:Eh; [|congruence].
    destruct (body_session_inv _ _ _ Eb h) as [_ Hz].
    assert (Hp : (1 <= released h (trace s1))%nat).
    { apply (@count_positive (release_event h) _ _ Hk). simpl. rewrite Eh.
      destruct h; reflexivity. }
    lia.
  - rewrite teardown_plan in Hs |- *.
    destruct (await_all_cases (release_plan s1) w s1)
      as [H | (done & c' & rest & e' & _ & H)]; rewrite H in Hs |- *;
      simpl in Hs |- *; injection Hs as Hs; apply app_inv_head in Hs;
      subst evs.
    + exfalso. apply in_map_iff in Hk. destruct Hk as (x & Hx & _).
      discriminate.
    + apply in_app_or in Hk. destruct Hk as [Hk | [Hk | []]].
      * exfalso. apply in_map_iff in Hk. destruct Hk as (x & Hx & _).
        discriminate.
      * inversion Hk. reflexivity.
Qed.

(** The third file made all its steps; closing the context raised; the run
    reports that error. *)
Lemma context_close_error_is_reported :
  fst (run_test TC003 context_close_fails init) = Raise (Error "Target closed").
Proof.
  apply (@release_error_masks_the_outcome TC003 context_close_fails 50
           ContextClose (Error "Target closed")).
  - vm_compute. reflexivity.
  - discriminate.
Defined.

(** ** The literals of every call *)

Lemma uniform_corpus :
  forallb (fun sc => forallb uniform_step (steps sc)) corpus = true.
Proof.
  vm_compute. reflexivity.
Qed.

Lemma uniform_step_calls (p fr : page) (st : step) (c : call) :
  uniform_step st = true -> In c (step_calls p fr st) ->
  expected_call c = true.
Proof.
  intros Hu Hc. destruct st; simpl in Hu, Hc;
    repeat (apply andb_true_iff in Hu; destruct Hu as [Hu ?]);
    repeat (destruct Hc as [<-|Hc]); try contradiction; simpl;
    repeat (apply andb_true_iff; split); try assumption; reflexivity.
Qed.

(** X12.  Every call of every run of every file carries the same literals:
    a navigation stays under http://localhost:3000, waits for "commit" and
    is bounded by 10000 ms; a wait for the load state is for
    "domcontentloaded" and bounded by 3000 ms; a settle delay is 3000 ms; a
    click is on the first match of an XPath under html/body with a timeout
    of 5000 ms, a fill likewise with no timeout of its own under a context
    default of 5000 ms; the browser is launched headless; the final sleep is
    5 s.  No call of a run waits without a bound. *)
Theorem every_call_is_bounded (sc : script) (w : world) :
  In sc corpus ->
  forallb expected_event (trace (snd (run_test sc w init))) = true.
Proof.
  intros Hin.
  assert (Hu : forallb uniform_step (steps sc) = true).
  { pose proof uniform_corpus as H. rewrite forallb_forall in H.
    exact (H sc Hin). }
  rewrite forallb_forall in Hu.
  destruct (run_test_trace sc w) as (r1 & s1 & evs & Eb & _ & Hrel & Ht & _).
  rewrite Ht, forallb_app. apply andb_true_iff. split.
  - rewrite scenario_body_split in Eb.
    destruct (open_session w (State None None None [])) as [[p|e] s0] eqn:E;
      destruct (open_session_spec _ E) as (_ & Hse & Hs0).
    + specialize (Hs0 p eq_refl). subst s0.
      assert (Ha : appends (fun e => expected_event e = true)
                     (after_session module_globals sc p)).
      { unfold after_session.
        apply appends_bind; [|intros _; apply appends_bind; [|intros _]].
        - apply appends_bind; [|intros _; apply appends_bind; [|intros _]].
          + apply appends_await. reflexivity.
          + apply appends_stabilize_on; reflexivity.
          + apply appends_steps_on; [reflexivity|].
            intros st fr c r Hst Hc. simpl.
            exact (@uniform_step_calls p fr st c (Hu st Hst) Hc).
        - destruct (assertion sc) as [a|].
          + intros w0 s r s' H. rewrite check_assertion_actual in H.
            destruct (last_page w0 s) as [[fr|e] s2] eqn:El;
              inversion H; subst;
              exact (@appends_last_page (fun e => expected_event e = true)
                       (fun _ => eq_refl) _ _ _ _ El).
          + apply appends_ret.
        - apply appends_await. reflexivity. }
      destruct (Ha _ _ _ _ Eb) as (_ & _ & _ & ev1 & Ht1 & F).
      rewrite Ht1. simpl trace. rewrite forallb_app.
      apply andb_true_iff. split; [reflexivity|].
      apply forallb_of_Forall. exact F.
    + inversion Eb; subst. clear Eb.
      revert Hse E. unfold open_session, new_page, bind, await, assign_pw,
        assign_browser, assign_context, log. simpl.
      case_outcomes; intros _ H; inversion H; reflexivity.
  - apply forallb_of_Forall.
    eapply Forall_impl; [|exact (@release_events s1 evs Hrel)].
    intros ev Hev. destruct ev as [c r| |]; try discriminate.
    destruct c; try discriminate; reflexivity.
Qed.

Lemma third_file_in_corpus : In TC003 corpus.
Proof.
  do 2 right. left. reflexivity.
Qed.

(** The run of the third file in a world where the third click times out. *)
Lemma third_file_calls_are_bounded :
  forallb expected_event
    (trace (snd (run_test TC003 third_click_fails init))) = true.
Proof.
  exact (@every_call_is_bounded TC003 third_click_fails third_file_in_corpus).
Defined.

(** ** The session comes first *)

(** X13.  Nothing is asked of a page before the session is fully open: if
    the trace of a run holds any event of the steps at all (a navigation, a
    wait, a read of the pages or frames, a click, a fill, the final sleep),
    then it begins with the five session calls, each of which returned:
    start, headless launch with the four flags, new context, default
    timeout of 5000 ms, new page. *)
Theorem session_opens_before_any_step (sc : script) (w : world) :
  existsb body_event (trace (snd (run_test sc w init))) = true ->
  firstn 5 (trace (snd (run_test sc w init))) = session_events.
Proof.
  destruct (run_test_trace sc w) as (r1 & s1 & evs & Eb & _ & Hrel & Ht & _).
  rewrite Ht. clear Ht. rewrite scenario_body_split in Eb.
  destruct (open_session w (State None None None [])) as [[p|e] s0] eqn:E;
    destruct (open_session_spec _ E) as (_ & Hse & Hs0).
  - intros _. specialize (Hs0 p eq_refl). subst s0.
    destruct (@appends_after_session (fun _ => True) module_globals sc p
                (fun _ _ => I) _ _ _ _ Eb) as (_ & _ & _ & ev1 & Ht1 & _).
    rewrite Ht1. simpl trace. rewrite <- app_assoc. reflexivity.
  - inversion Eb; subst. intros H. exfalso.
    rewrite existsb_app in H. apply orb_true_iff in H.
    destruct H as [H|H]; apply existsb_exists in H;
      destruct H as (ev & Hev & Hb).
    + rewrite forallb_forall in Hse. specialize (Hse ev Hev).
      destruct ev as [c r| |]; try discriminate.
      destruct c; discriminate.
    + pose proof (@release_events s1 evs Hrel) as F.
      rewrite Forall_forall in F. specialize (F ev Hev).
      destruct ev as [c r| |]; try discriminate.
      destruct c; discriminate.
Qed.

(** In the run where the application is down the navigation was attempted,
    so the session had been opened. *)
Lemma server_down_session_was_open :
  firstn 5 (trace (snd (run_test TC001 server_down init))) = session_events.
Proof.
  apply session_opens_before_any_step. vm_compute. reflexivity.
Defined.
